(** * The Lambda function-URL resource of the Terraform AWS provider

    A shallow embedding of [internal/service/lambda/function_url.go]:
    the resource schema, the four CRUD callbacks, the importer and the two
    CORS converters, followed by the properties the specification states
    about them.

    The callbacks talk to three things that live outside the file: the
    Lambda connection ([conn]), the plugin SDK's [schema.ResourceData] and
    Go's [fmt].  The connection is a parameter (any remote behaviour), the
    resource data is a record that is threaded through a small state monad
    together with the list of API calls issued so far, and a Go panic is an
    outcome of its own.  The [log.Printf] lines of the callbacks write to
    the provider's log only and are left out. *)

From Stdlib Require Import String Ascii List ZArith Bool Lia DecimalString.
Import ListNotations.
Open Scope string_scope.
Open Scope list_scope.

Set Implicit Arguments.

(* ================================================================= *)
(** ** Go: panics, [strings.Split], errors *)

Module Go.

(** A call either returns or panics (index out of range, failed type
    assertion). *)
Inductive outcome (A : Type) : Type :=
| Returned (a : A)
| Panicked (reason : string).
Arguments Panicked {A} reason.

(** [strings.Split s sep] for a one-byte separator: every maximal run of
    bytes between two separators, in order.  A string without the
    separator gives the one-element slice holding the string itself. *)
Fixpoint Split (s : string) (sep : ascii) : list string :=
  match s with
  | EmptyString => [EmptyString]
  | String c rest =>
      if Ascii.eqb c sep then EmptyString :: Split rest sep
      else match Split rest sep with
           | seg :: segs => String c seg :: segs
           | [] => [String c EmptyString]
           end
  end.

(** [strings.Join]. *)
Fixpoint Join (segs : list string) (sep : string) : string :=
  match segs with
  | [] => ""
  | [seg] => seg
  | seg :: rest => seg ++ sep ++ Join rest sep
  end.

(** [strings.Contains s (string c)]. *)
Fixpoint ContainsByte (c : ascii) (s : string) : bool :=
  match s with
  | EmptyString => false
  | String a rest => Ascii.eqb a c || ContainsByte c rest
  end.

(** [xs[i]] with a signed index: out of range panics. *)
Definition index {A} (xs : list A) (i : Z) : outcome A :=
  if (i <? 0)%Z then Panicked "index out of range"
  else match nth_error xs (Z.to_nat i) with
       | Some x => Returned x
       | None => Panicked "index out of range"
       end.

Definition len {A} (xs : list A) : Z := Z.of_nat (length xs).

(** Error values.  [awsError] is what [awserr.New code message nil]
    builds and the only shape that implements [awserr.Error];
    [wrapError] is an error with an [Unwrap] method (as built by
    [fmt.Errorf] with [%w]); [plainError] is any other error. *)
Inductive error : Type :=
| awsError (code message : string)
| wrapError (text : string) (inner : error)
| plainError (text : string).

(** The [Error()] method; for [awsError] it is [awserr.SprintError] with
    no extra text and no original error. *)
Definition Error (e : error) : string :=
  match e with
  | awsError code message => code ++ ": " ++ message
  | wrapError text _ => text
  | plainError text => text
  end.

(** [err.(awserr.Error)]: a type assertion looks at the value itself and
    never unwraps. *)
Definition assert_awserr (e : error) : option (string * string) :=
  match e with
  | awsError code message => Some (code, message)
  | _ => None
  end.

(** [errors.As(err, &awsErr)]: the first error of the [Unwrap] chain that
    implements [awserr.Error]. *)
Fixpoint As_awserr (e : error) : option (string * string) :=
  match e with
  | awsError code message => Some (code, message)
  | wrapError _ inner => As_awserr inner
  | plainError _ => None
  end.

End Go.
Export Go.

(* ================================================================= *)
(** ** aws-sdk-go: the Lambda request and response shapes *)

Module lambda.

(** Modelled from the spec: the constant [lambda.FunctionUrlAuthTypeNone]
    belongs to aws-sdk-go and is not among the sources; it is the
    authorization type [NONE]. *)
Definition FunctionUrlAuthTypeNone : string := "NONE".

(** Modelled from the spec: the constant
    [lambda.FunctionUrlAuthTypeAwsIam] of aws-sdk-go, the other value of
    the authorization type enum. *)
Definition FunctionUrlAuthTypeAwsIam : string := "AWS_IAM".

(** [lambda.FunctionUrlAuthType_Values()]. *)
Definition FunctionUrlAuthType_Values : list string :=
  [FunctionUrlAuthTypeNone; FunctionUrlAuthTypeAwsIam].

(** Modelled from the spec: the constant
    [lambda.ErrCodeResourceNotFoundException] of aws-sdk-go, the one
    recognised not-found code. *)
Definition ErrCodeResourceNotFoundException : string :=
  "ResourceNotFoundException".

(** Pointer fields are options: [None] is the nil pointer, a field the
    request does not carry. *)
Record Cors : Type := mkCors {
  AllowCredentials : option bool;
  AllowHeaders : list (option string);
  AllowMethods : list (option string);
  AllowOrigins : list (option string);
  ExposeHeaders : list (option string);
  MaxAge : option Z
}.

(** [&lambda.Cors{}]. *)
Definition emptyCors : Cors := mkCors None [] [] [] [] None.

Record CreateFunctionUrlConfigInput : Type := {
  create_AuthType : option string;
  create_Cors : option Cors;
  create_FunctionName : option string;
  create_Qualifier : option string
}.

Record CreateFunctionUrlConfigOutput : Type := {
  created_FunctionArn : option string
}.

Record AddPermissionInput : Type := {
  perm_Action : option string;
  perm_FunctionName : option string;
  perm_FunctionUrlAuthType : option string;
  perm_Principal : option string;
  perm_StatementId : option string
}.

Record GetFunctionUrlConfigInput : Type := {
  get_FunctionName : option string;
  get_Qualifier : option string
}.

Record GetFunctionUrlConfigOutput : Type := {
  got_AuthType : option string;
  got_Cors : option Cors;
  got_FunctionArn : option string;
  got_FunctionUrl : option string
}.

Record UpdateFunctionUrlConfigInput : Type := {
  update_AuthType : option string;
  update_Cors : option Cors;
  update_FunctionName : option string;
  update_Qualifier : option string
}.

Record DeleteFunctionUrlConfigInput : Type := {
  delete_FunctionName : option string;
  delete_Qualifier : option string
}.

(** One remote request, as it appears on the wire. *)
Inductive ApiCall : Type :=
| CallCreateFunctionUrlConfig (input : CreateFunctionUrlConfigInput)
| CallAddPermission (input : AddPermissionInput)
| CallGetFunctionUrlConfig (input : GetFunctionUrlConfigInput)
| CallUpdateFunctionUrlConfig (input : UpdateFunctionUrlConfigInput)
| CallDeleteFunctionUrlConfig (input : DeleteFunctionUrlConfigInput).

(** The connection: each operation answers from the remote state [R]
    with an output or an error and leaves a new remote state. *)
Record Conn (R : Type) : Type := {
  CreateFunctionUrlConfigWithContext :
    CreateFunctionUrlConfigInput -> R ->
    (CreateFunctionUrlConfigOutput + error) * R;
  AddPermissionWithContext :
    AddPermissionInput -> R -> (unit + error) * R;
  GetFunctionUrlConfig :
    GetFunctionUrlConfigInput -> R ->
    (GetFunctionUrlConfigOutput + error) * R;
  UpdateFunctionUrlConfig :
    UpdateFunctionUrlConfigInput -> R -> (unit + error) * R;
  DeleteFunctionUrlConfig :
    DeleteFunctionUrlConfigInput -> R -> (unit + error) * R
}.

End lambda.

(** [aws.StringValue]: the nil pointer reads as the empty string. *)
Definition aws_StringValue (p : option string) : string :=
  match p with Some s => s | None => "" end.

(** [tfawserr.ErrCodeEquals err code]; a nil error ([None]) has no code. *)
Definition ErrCodeEquals (err : option error) (code : string) : bool :=
  match err with
  | None => false
  | Some e =>
      match As_awserr e with
      | Some (c, _) => String.eqb c code
      | None => false
      end
  end.

(* ================================================================= *)
(** ** terraform-plugin-sdk: values, diagnostics, schema *)

Set Warnings "-register-all".

(** An [interface{}] as the SDK hands it to a resource: the dynamic type
    is the constructor, and a type assertion is a match on it. *)
Inductive value : Type :=
| VNil
| VBool (b : bool)
| VInt (n : Z)
| VString (s : string)
| VList (items : list value)               (* []interface{} *)
| VSet (items : list value)                (* *schema.Set *)
| VMap (entries : list (string * value)).  (* map[string]interface{} *)

(** [m[key]] on a [map[string]interface{}]: a missing key reads as the
    nil interface. *)
Fixpoint map_get (entries : list (string * value)) (key : string) : value :=
  match entries with
  | [] => VNil
  | (k, v) :: rest => if String.eqb k key then v else map_get rest key
  end.

(** The type assertions of the file; each panics on any other dynamic
    type, the nil interface included. *)
Definition assert_map (v : value) : outcome (list (string * value)) :=
  match v with
  | VMap entries => Returned entries
  | _ => Panicked "interface conversion: not map[string]interface {}"
  end.

Definition assert_bool (v : value) : outcome bool :=
  match v with
  | VBool b => Returned b
  | _ => Panicked "interface conversion: not bool"
  end.

Definition assert_list (v : value) : outcome (list value) :=
  match v with
  | VList items => Returned items
  | _ => Panicked "interface conversion: not []interface {}"
  end.

Definition assert_int (v : value) : outcome Z :=
  match v with
  | VInt n => Returned n
  | _ => Panicked "interface conversion: not int"
  end.

(** Element-wise comparison of two slices. *)
Definition all2 {A} (eq : A -> A -> bool) : list A -> list A -> bool :=
  fix go (xs ys : list A) {struct xs} : bool :=
    match xs, ys with
    | [], [] => true
    | x :: xs', y :: ys' => eq x y && go xs' ys'
    | _, _ => false
    end.

(** Structural equality of values ([reflect.DeepEqual]). *)
Fixpoint value_eqb (a b : value) {struct a} : bool :=
  match a, b with
  | VNil, VNil => true
  | VBool x, VBool y => Bool.eqb x y
  | VInt x, VInt y => Z.eqb x y
  | VString x, VString y => String.eqb x y
  | VList xs, VList ys => all2 value_eqb xs ys
  | VSet xs, VSet ys => all2 value_eqb xs ys
  | VMap xs, VMap ys =>
      all2 (fun kx ky => String.eqb (fst kx) (fst ky) && value_eqb (snd kx) (snd ky))
           xs ys
  | _, _ => false
  end.

Section ValueInduction.

Variable P : value -> Prop.
Hypothesis PNil : P VNil.
Hypothesis PBool : forall b, P (VBool b).
Hypothesis PInt : forall n, P (VInt n).
Hypothesis PString : forall s, P (VString s).
Hypothesis PList : forall items, Forall P items -> P (VList items).
Hypothesis PSet : forall items, Forall P items -> P (VSet items).
Hypothesis PMap :
  forall entries, Forall (fun kv => P (snd kv)) entries -> P (VMap entries).

(** Induction on values that reaches the elements of slices, sets and
    maps. *)
Fixpoint value_nested_ind (v : value) : P v :=
  match v with
  | VNil => PNil
  | VBool b => PBool b
  | VInt n => PInt n
  | VString s => PString s
  | VList items =>
      PList ((fix each (l : list value) : Forall P l :=
                match l with
                | [] => Forall_nil P
                | x :: l' => Forall_cons x (value_nested_ind x) (each l')
                end) items)
  | VSet items =>
      PSet ((fix each (l : list value) : Forall P l :=
               match l with
               | [] => Forall_nil P
               | x :: l' => Forall_cons x (value_nested_ind x) (each l')
               end) items)
  | VMap entries =>
      PMap ((fix each (l : list (string * value))
               : Forall (fun kv => P (snd kv)) l :=
               match l with
               | [] => Forall_nil _
               | (k, x) :: l' =>
                   Forall_cons (P := fun kv => P (snd kv)) (k, x)
                     (value_nested_ind x) (each l')
               end) entries)
  end.

End ValueInduction.

Module diag.

Inductive Severity : Type := Error | Warning.

Record Diagnostic : Type := {
  severity : Severity;
  Summary : string;
  Detail : string
}.

(** [diag.Diagnostics]; the nil slice is the empty list. *)
Definition Diagnostics : Type := list Diagnostic.

(** [Diagnostics.HasError]. *)
Definition HasError (ds : Diagnostics) : bool :=
  existsb (fun d => match severity d with Error => true | Warning => false end) ds.

End diag.

(* ================================================================= *)
(** ** The fragment of [fmt.Sprintf] the file uses *)

Module fmt.

(** What [fmt] prints for an error value when it may not call the
    [Error] method (inside a bad-verb report): the name of the dynamic
    type and the reflection dump of the value.  Both belong to the Go
    runtime and stay abstract. *)
Class Reflection : Type := {
  TypeOf : error -> string;
  GoValue : error -> string
}.

(** The operands passed to the format strings of the file. *)
Inductive arg : Type :=
| str (s : string)
| err (e : error).

Section Printing.
Context {reflection : Reflection}.

(** The verbs [%s] and [%v]: a string as it is, an error through its
    [Error] method. *)
Definition printValue (a : arg) : string :=
  match a with
  | str s => s
  | err e => Go.Error e
  end.

Definition typeString (a : arg) : string :=
  match a with
  | str _ => "string"
  | err e => TypeOf e
  end.

(** [badVerb]: [%!verb(type=value)], the value printed with the
    methods switched off. *)
Definition badVerb (verb : ascii) (a : arg) : string :=
  "%!" ++ String verb "(" ++ typeString a ++ "="
       ++ match a with str s => s | err e => GoValue e end ++ ")".

Definition missing (verb : ascii) : string :=
  "%!" ++ String verb "(MISSING)".

Fixpoint extraArgs (args : list arg) : string :=
  match args with
  | [] => ""
  | [a] => typeString a ++ "=" ++ printValue a
  | a :: rest => typeString a ++ "=" ++ printValue a ++ ", " ++ extraArgs rest
  end.

(** One verb applied to one operand.  [%w] is an error-wrapping verb
    only for [fmt.Errorf]; [Sprintf] reports it as a bad verb.  Verbs
    other than [s], [v] and [w] do not occur in the file and are
    reported the same way. *)
Definition printArg (verb : ascii) (a : arg) : string :=
  if Ascii.eqb verb "s" || Ascii.eqb verb "v" then printValue a
  else badVerb verb a.

Fixpoint Sprintf (format : string) (args : list arg) : string :=
  match format with
  | EmptyString =>
      match args with
      | [] => ""
      | _ => "%!(EXTRA " ++ extraArgs args ++ ")"
      end
  | String "%" EmptyString => "%!(NOVERB)"
  | String "%" (String verb rest) =>
      if Ascii.eqb verb "%" then String "%" (Sprintf rest args)
      else match args with
           | a :: args' => printArg verb a ++ Sprintf rest args'
           | [] => missing verb ++ Sprintf rest []
           end
  | String c rest => String c (Sprintf rest args)
  end.

End Printing.

End fmt.

(** The diagnostics that hold one error with the given summary. *)
Definition errorDiagnostic (summary : string) : diag.Diagnostics :=
  [ {| diag.severity := diag.Error; diag.Summary := summary; diag.Detail := "" |} ].

(** [diag.Errorf]: one diagnostic of severity [Error] whose summary is
    [fmt.Sprintf format args]. *)
Definition diag_Errorf {reflection : fmt.Reflection}
    (format : string) (args : list fmt.arg) : diag.Diagnostics :=
  [ {| diag.severity := diag.Error;
       diag.Summary := fmt.Sprintf format args;
       diag.Detail := "" |} ].

(* ================================================================= *)
(** ** [helper/schema] and [helper/validation] *)

Module schema.

Inductive ValueType : Type :=
| TypeBool | TypeInt | TypeString | TypeList | TypeSet.

(** [SchemaValidateFunc]: the value and its key give warnings and
    errors. *)
Definition SchemaValidateFunc : Type :=
  value -> string -> list string * list error.

Inductive Schema : Type :=
| mkSchema (type : ValueType)
           (Required Optional Computed ForceNew : bool)
           (MaxItems : nat)
           (Elem : option Elem)
           (ValidateFunc : option SchemaValidateFunc)
with Elem : Type :=
| ElemSchema (s : Schema)
| ElemResource (fields : list (string * Schema)).

Definition ValidateFunc (s : Schema) : option SchemaValidateFunc :=
  match s with mkSchema _ _ _ _ _ _ _ f => f end.

Definition elem (s : Schema) : option Elem :=
  match s with mkSchema _ _ _ _ _ _ e _ => e end.

Definition type (s : Schema) : ValueType :=
  match s with mkSchema t _ _ _ _ _ _ _ => t end.

(** [schema.Resource], reduced to its [Schema] map. *)
Record Resource : Type := { fields : list (string * Schema) }.

Fixpoint field (m : list (string * Schema)) (key : string) : option Schema :=
  match m with
  | [] => None
  | (k, s) :: rest => if String.eqb k key then Some s else field rest key
  end.

(** The schema of a nested attribute: [["cors"; "max_age"]] is the
    [max_age] attribute of the [cors] block. *)
Definition attribute (r : Resource) (path : list string) : option Schema :=
  match path with
  | [k] => field (fields r) k
  | [block; k] =>
      match field (fields r) block with
      | Some s =>
          match elem s with
          | Some (ElemResource inner) => field inner k
          | _ => None
          end
      | None => None
      end
  | _ => None
  end.

(** The end of the SDK's [validatePrimitive]: a configured value is run
    through the attribute's [ValidateFunc] when there is one, and the
    errors it returns reject the configuration before any callback of the
    resource runs. *)
Definition validate (s : Schema) (key : string) (v : value) : list error :=
  match ValidateFunc s with
  | Some f => snd (f v key)
  | None => []
  end.

Definition accepts (r : Resource) (path : list string) (v : value) : bool :=
  match attribute r path with
  | Some s =>
      match validate s (Join path ".") v with
      | [] => true
      | _ :: _ => false
      end
  | None => false
  end.

End schema.

Module validation.

Definition lower (c : ascii) : ascii :=
  let n := nat_of_ascii c in
  if (65 <=? n)%nat && (n <=? 90)%nat then ascii_of_nat (n + 32) else c.

(** [strings.EqualFold] on ASCII. *)
Fixpoint EqualFold (a b : string) : bool :=
  match a, b with
  | EmptyString, EmptyString => true
  | String x a', String y b' => Ascii.eqb (lower x) (lower y) && EqualFold a' b'
  | _, _ => false
  end.

Definition showZ (n : Z) : string :=
  NilEmpty.string_of_int (Z.to_int n).

(** [validation.StringInSlice valid ignoreCase]. *)
Definition StringInSlice (valid : list string) (ignoreCase : bool)
  : schema.SchemaValidateFunc :=
  fun i k =>
    match i with
    | VString v =>
        if existsb (fun s => String.eqb v s || (ignoreCase && EqualFold v s)) valid
        then ([], [])
        else ([], [plainError ("expected " ++ k ++ " to be one of ["
                               ++ Join valid " " ++ "], got " ++ v)])
    | _ => ([], [plainError ("expected type of " ++ k ++ " to be string")])
    end.

(** [validation.IntAtMost max]. *)
Definition IntAtMost (max : Z) : schema.SchemaValidateFunc :=
  fun i k =>
    match i with
    | VInt v =>
        if (v >? max)%Z
        then ([], [plainError ("expected " ++ k ++ " to be at most ("
                               ++ showZ max ++ "), got " ++ showZ v)])
        else ([], [])
    | _ => ([], [plainError ("expected type of " ++ k ++ " to be integer")])
    end.

End validation.

(** [schema.ResourceData].  The top-level attributes are typed by the
    schema, so they are fields of a record; the elements of the [cors]
    list stay dynamic, because the file asserts their types itself.  An
    unset attribute holds the zero value of its type. *)
Record Attributes : Type := {
  authorization_type : string;
  cors : list value;
  function_arn : string;
  function_name : string;
  function_url : string;
  qualifier : string
}.

Record ResourceData : Type := {
  Id : string;
  IsNewResource : bool;
  (** the state the operation started from, the old side of [GetChange] *)
  prior : Attributes;
  (** what [d.Get] reads: the configuration, overwritten by [d.Set] *)
  current : Attributes
}.

(** [d.GetOk key] on a string attribute: set and not the zero value. *)
Definition GetOk_string (s : string) : string * bool :=
  (s, negb (String.eqb s "")).

(** [d.GetOk "cors"]: the list and whether it is non-empty. *)
Definition GetOk_list (l : list value) : list value * bool :=
  (l, match l with [] => false | _ :: _ => true end).

(** [d.HasChange key]: the old and the new value differ. *)
Definition HasChange_authorization_type (d : ResourceData) : bool :=
  negb (String.eqb (authorization_type (prior d)) (authorization_type (current d))).

Definition HasChange_cors (d : ResourceData) : bool :=
  negb (value_eqb (VList (cors (prior d))) (VList (cors (current d)))).

Definition SetId (d : ResourceData) (id : string) : ResourceData :=
  {| Id := id; IsNewResource := IsNewResource d;
     prior := prior d; current := current d |}.

Definition withCurrent (d : ResourceData) (a : Attributes) : ResourceData :=
  {| Id := Id d; IsNewResource := IsNewResource d;
     prior := prior d; current := a |}.

Definition Set_authorization_type (d : ResourceData) (v : string) : ResourceData :=
  let a := current d in
  withCurrent d {| authorization_type := v; cors := cors a;
                   function_arn := function_arn a; function_name := function_name a;
                   function_url := function_url a; qualifier := qualifier a |}.

Definition Set_cors (d : ResourceData) (v : list value) : ResourceData :=
  let a := current d in
  withCurrent d {| authorization_type := authorization_type a; cors := v;
                   function_arn := function_arn a; function_name := function_name a;
                   function_url := function_url a; qualifier := qualifier a |}.

Definition Set_function_arn (d : ResourceData) (v : string) : ResourceData :=
  let a := current d in
  withCurrent d {| authorization_type := authorization_type a; cors := cors a;
                   function_arn := v; function_name := function_name a;
                   function_url := function_url a; qualifier := qualifier a |}.

Definition Set_function_name (d : ResourceData) (v : string) : ResourceData :=
  let a := current d in
  withCurrent d {| authorization_type := authorization_type a; cors := cors a;
                   function_arn := function_arn a; function_name := v;
                   function_url := function_url a; qualifier := qualifier a |}.

Definition Set_function_url (d : ResourceData) (v : string) : ResourceData :=
  let a := current d in
  withCurrent d {| authorization_type := authorization_type a; cors := cors a;
                   function_arn := function_arn a; function_name := function_name a;
                   function_url := v; qualifier := qualifier a |}.

Definition Set_qualifier (d : ResourceData) (v : string) : ResourceData :=
  let a := current d in
  withCurrent d {| authorization_type := authorization_type a; cors := cors a;
                   function_arn := function_arn a; function_name := function_name a;
                   function_url := function_url a; qualifier := v |}.

(* ================================================================= *)
(** ** The resource *)

(** Sequencing of calls that may panic. *)
Definition obind {A B} (c : outcome A) (k : A -> outcome B) : outcome B :=
  match c with
  | Returned a => k a
  | Panicked reason => Panicked reason
  end.

Notation "x <~ c ;; k" := (obind c (fun x => k))
  (at level 61, c at next level, right associativity).

Definition schemaOf (t : schema.ValueType) : schema.Schema :=
  schema.mkSchema t false false false false 0 None None.

(** [ResourceFunctionUrl]: the [Schema] map of the resource.  The
    callbacks it registers are the definitions below; [DiffSuppressFunc]
    of [function_name] and the create timeout play no part in them. *)
Definition ResourceFunctionUrl : schema.Resource :=
  {| schema.fields :=
      [ ("authorization_type",
          schema.mkSchema schema.TypeString true false false false 0 None
            (Some (validation.StringInSlice lambda.FunctionUrlAuthType_Values false)));
        ("cors",
          schema.mkSchema schema.TypeList false true false false 1
            (Some (schema.ElemResource
              [ ("allow_credentials",
                  schema.mkSchema schema.TypeBool false true false false 0 None None);
                ("allow_headers",
                  schema.mkSchema schema.TypeSet false true false false 0
                    (Some (schema.ElemSchema (schemaOf schema.TypeString))) None);
                ("allow_methods",
                  schema.mkSchema schema.TypeSet false true false false 0
                    (Some (schema.ElemSchema (schemaOf schema.TypeString))) None);
                ("allow_origins",
                  schema.mkSchema schema.TypeSet false true false false 0
                    (Some (schema.ElemSchema (schemaOf schema.TypeString))) None);
                ("expose_headers",
                  schema.mkSchema schema.TypeSet false true false false 0
                    (Some (schema.ElemSchema (schemaOf schema.TypeString))) None);
                ("max_age",
                  schema.mkSchema schema.TypeInt false true false false 0 None
                    (Some (validation.IntAtMost 86400))) ]))
            None);
        ("function_arn",
          schema.mkSchema schema.TypeString false false true false 0 None None);
        ("function_name",
          schema.mkSchema schema.TypeString true false false true 0 None None);
        ("function_url",
          schema.mkSchema schema.TypeString false false true false 0 None None);
        ("qualifier",
          schema.mkSchema schema.TypeString false true false true 0 None None) ] |}.

Section Converters.

(** [flex.ExpandStringList] lives in another package of the repository;
    the converter only passes its result on. *)
Variable ExpandStringList : list value -> list (option string).

Definition nonEmpty (items : list value) : bool := (0 <? len items)%Z.

Definition expandFunctionUrlCorsConfigs (urlConfigMap : list value)
  : outcome lambda.Cors :=
  match urlConfigMap with
  | [VNil] => Returned lambda.emptyCors
  | [first] =>
      config <~ assert_map first ;;
      allow_credentials <~ assert_bool (map_get config "allow_credentials") ;;
      allow_headers <~ assert_list (map_get config "allow_headers") ;;
      allow_methods <~ assert_list (map_get config "allow_methods") ;;
      allow_origins <~ assert_list (map_get config "allow_origins") ;;
      expose_headers <~ assert_list (map_get config "expose_headers") ;;
      max_age <~ assert_int (map_get config "max_age") ;;
      Returned
        {| lambda.AllowCredentials := Some allow_credentials;
           lambda.AllowHeaders :=
             if nonEmpty allow_headers then ExpandStringList allow_headers else [];
           lambda.AllowMethods :=
             if nonEmpty allow_methods then ExpandStringList allow_methods else [];
           lambda.AllowOrigins :=
             if nonEmpty allow_origins then ExpandStringList allow_origins else [];
           lambda.ExposeHeaders :=
             if nonEmpty expose_headers then ExpandStringList expose_headers else [];
           lambda.MaxAge := if (max_age >? 0)%Z then Some max_age else None |}
  | _ => Returned lambda.emptyCors
  end.

End Converters.

Definition ptrString (p : option string) : value :=
  match p with Some s => VString s | None => VNil end.

Definition flattenFunctionUrlCorsConfigs (cors : option lambda.Cors) : list value :=
  match cors with
  | None => []
  | Some c =>
      [ VMap
          [ ("allow_credentials",
              match lambda.AllowCredentials c with Some b => VBool b | None => VNil end);
            ("allow_headers", VList (map ptrString (lambda.AllowHeaders c)));
            ("allow_methods", VList (map ptrString (lambda.AllowMethods c)));
            ("allow_origins", VList (map ptrString (lambda.AllowOrigins c)));
            ("expose_headers", VList (map ptrString (lambda.ExposeHeaders c)));
            ("max_age",
              match lambda.MaxAge c with Some n => VInt n | None => VNil end) ] ]
  end.

Section DiffSuppress.

(** [GetFunctionNameFromARN] lives in another file of the package: it
    gives a function name and an error, nil ([None]) when the argument is a
    function ARN. *)
Variable GetFunctionNameFromARN : string -> string * option error.

(** The [DiffSuppressFunc] of [function_name]: the difference between the
    old and the new value is not shown when one of them is the ARN of the
    function the other one names. *)
Definition functionNameDiffSuppress (k old new : string) : bool :=
  let (oldFunctionName, oldFunctionNameErr) := GetFunctionNameFromARN old in
  let (newFunctionName, newFunctionNameErr) := GetFunctionNameFromARN new in
  (String.eqb oldFunctionName new
     && match oldFunctionNameErr with None => true | Some _ => false end)
  || (String.eqb newFunctionName old
        && match newFunctionNameErr with None => true | Some _ => false end).

End DiffSuppress.

(** [resourceFunctionUrlImport]: no remote call; the resource data it
    returns is the one it was given, with the two attributes set. *)
Definition resourceFunctionUrlImport (d : ResourceData)
  : outcome (list ResourceData * option error) :=
  let idSplit := Split (Id d) ":" in
  functionName <~ index idSplit (len idSplit - 2) ;;
  qualifier <~ index idSplit (len idSplit - 1) ;;
  let d := Set_function_name d functionName in
  let d := Set_qualifier d qualifier in
  Returned ([d], None).

Section Callbacks.

(** The Lambda connection of the provider's client, over any remote. *)
Variable R : Type.
Variable conn : lambda.Conn R.
Context {reflection : fmt.Reflection}.
Variable ExpandStringList : list value -> list (option string).

(** What [d.Get "cors"] reads after [d.Set "cors" v]: the SDK re-encodes
    the value under the schema. *)
Variable storedList : list value -> list value.

(** The state a callback runs in: the resource data behind the pointer
    [d], the remote service, and the requests sent so far, oldest
    first. *)
Record World : Type := {
  data : ResourceData;
  remote : R;
  calls : list lambda.ApiCall
}.

Definition M (A : Type) : Type := World -> outcome A * World.

Definition ret {A} (a : A) : M A := fun w => (Returned a, w).

Definition bind {A B} (c : M A) (k : A -> M B) : M B :=
  fun w =>
    match c w with
    | (Returned a, w') => k a w'
    | (Panicked reason, w') => (Panicked reason, w')
    end.

Definition lift {A} (c : outcome A) : M A := fun w => (c, w).

Definition getData : M ResourceData := fun w => (Returned (data w), w).

Definition modifyData (f : ResourceData -> ResourceData) : M unit :=
  fun w => (Returned tt,
            {| data := f (data w); remote := remote w; calls := calls w |}).

(** One synchronous request: it is recorded and answered by the
    remote. *)
Definition send {O} (call : lambda.ApiCall) (answer : R -> (O + error) * R)
  : M (O + error) :=
  fun w =>
    let (r, remote') := answer (remote w) in
    (Returned r,
     {| data := data w; remote := remote'; calls := calls w ++ [call] |}).

Notation "x <- c ;; k" := (bind c (fun x => k))
  (at level 61, c at next level, right associativity).
Notation "c ;;; k" := (bind c (fun _ => k))
  (at level 61, right associativity).

Definition isNotFound (e : error) : bool :=
  match assert_awserr e with
  | Some (code, _) => String.eqb code lambda.ErrCodeResourceNotFoundException
  | None => false
  end.

(** The [GetFunctionUrlConfigInput] a read builds from [d]. *)
Definition getInput (d : ResourceData) : lambda.GetFunctionUrlConfigInput :=
  {| lambda.get_FunctionName := Some (function_name (current d));
     lambda.get_Qualifier :=
       let (v, ok) := GetOk_string (qualifier (current d)) in
       if ok then Some v else None |}.

Definition resourceFunctionURLRead : M diag.Diagnostics :=
  d <- getData ;;
  let input := getInput d in
  r <- send (lambda.CallGetFunctionUrlConfig input)
            (lambda.GetFunctionUrlConfig conn input) ;;
  match r with
  | inr e =>
      d <- getData ;;
      if isNotFound e && negb (IsNewResource d) then
        modifyData (fun d => SetId d "") ;;;
        ret []
      else
        ret (diag_Errorf "error getting Lambda Function Url Config (%s): %w"
               [fmt.str (Id d); fmt.err e])
  | inl output =>
      modifyData (fun d =>
        Set_authorization_type d (aws_StringValue (lambda.got_AuthType output))) ;;;
      modifyData (fun d =>
        Set_cors d (storedList (flattenFunctionUrlCorsConfigs (lambda.got_Cors output)))) ;;;
      modifyData (fun d =>
        Set_function_arn d (aws_StringValue (lambda.got_FunctionArn output))) ;;;
      modifyData (fun d =>
        Set_function_url d (aws_StringValue (lambda.got_FunctionUrl output))) ;;;
      ret []
  end.

Definition permissionInput (d : ResourceData) (v : string) : lambda.AddPermissionInput :=
  {| lambda.perm_Action := Some "lambda:InvokeFunctionUrl";
     lambda.perm_FunctionName := Some (function_name (current d));
     lambda.perm_FunctionUrlAuthType := Some v;
     lambda.perm_Principal := Some "*";
     lambda.perm_StatementId := Some "FunctionURLAllowPublicAccess" |}.

(** The [CreateFunctionUrlConfigInput] a create builds from [d]; the
    CORS conversion may panic. *)
Definition createInput (d : ResourceData)
  : outcome lambda.CreateFunctionUrlConfigInput :=
  let name := function_name (current d) in
  corsField <~
    (let (v, ok) := GetOk_list (cors (current d)) in
     if ok && nonEmpty v
     then c <~ expandFunctionUrlCorsConfigs ExpandStringList v ;; Returned (Some c)
     else Returned None) ;;
  Returned
    {| lambda.create_AuthType := Some (authorization_type (current d));
       lambda.create_Cors := corsField;
       lambda.create_FunctionName := Some name;
       lambda.create_Qualifier :=
         let (v, ok) := GetOk_string (qualifier (current d)) in
         if ok then Some v else None |}.

Definition resourceFunctionURLCreate : M diag.Diagnostics :=
  d <- getData ;;
  let name := function_name (current d) in
  input <- lift (createInput d) ;;
  r <- send (lambda.CallCreateFunctionUrlConfig input)
            (lambda.CreateFunctionUrlConfigWithContext conn input) ;;
  match r with
  | inr e =>
      ret (diag_Errorf "error creating Lambda Function URL (%s): %s"
             [fmt.str name; fmt.err e])
  | inl output =>
      modifyData (fun d => SetId d (aws_StringValue (lambda.created_FunctionArn output))) ;;;
      d <- getData ;;
      let v := authorization_type (current d) in
      if String.eqb v lambda.FunctionUrlAuthTypeNone then
        let input := permissionInput d v in
        r <- send (lambda.CallAddPermission input)
                  (lambda.AddPermissionWithContext conn input) ;;
        match r with
        | inr e =>
            d <- getData ;;
            ret (diag_Errorf "error adding Lambda Function URL (%s) permission %s"
                   [fmt.str (Id d); fmt.err e])
        | inl _ => resourceFunctionURLRead
        end
      else resourceFunctionURLRead
  end.

(** The [UpdateFunctionUrlConfigInput] an update builds from [d]. *)
Definition updateParams (d : ResourceData)
  : outcome lambda.UpdateFunctionUrlConfigInput :=
  let qualifierField :=
    let (v, ok) := GetOk_string (qualifier (current d)) in
    if ok then Some v else None in
  let authField :=
    if HasChange_authorization_type d
    then Some (authorization_type (current d)) else None in
  corsField <~
    (if HasChange_cors d
     then c <~ expandFunctionUrlCorsConfigs ExpandStringList (cors (current d)) ;;
          Returned (Some c)
     else Returned None) ;;
  Returned
    {| lambda.update_AuthType := authField;
       lambda.update_Cors := corsField;
       lambda.update_FunctionName := Some (function_name (current d));
       lambda.update_Qualifier := qualifierField |}.

Definition resourceFunctionURLUpdate : M diag.Diagnostics :=
  d <- getData ;;
  params <- lift (updateParams d) ;;
  r <- send (lambda.CallUpdateFunctionUrlConfig params)
            (lambda.UpdateFunctionUrlConfig conn params) ;;
  match r with
  | inr e =>
      d <- getData ;;
      ret (diag_Errorf "error updating Lambda Function Url (%s): %s"
             [fmt.str (Id d); fmt.err e])
  | inl _ => resourceFunctionURLRead
  end.

(** The [DeleteFunctionUrlConfigInput] a delete builds from [d]. *)
Definition deleteParams (d : ResourceData) : lambda.DeleteFunctionUrlConfigInput :=
  {| lambda.delete_FunctionName := Some (function_name (current d));
     lambda.delete_Qualifier :=
       let (v, ok) := GetOk_string (qualifier (current d)) in
       if ok then Some v else None |}.

Definition resourceFunctionURLDelete : M diag.Diagnostics :=
  d <- getData ;;
  let params := deleteParams d in
  r <- send (lambda.CallDeleteFunctionUrlConfig params)
            (lambda.DeleteFunctionUrlConfig conn params) ;;
  let e := match r with inr e => Some e | inl _ => None end in
  if ErrCodeEquals e lambda.ErrCodeResourceNotFoundException then ret []
  else
    match e with
    | Some e =>
        d <- getData ;;
        ret (diag_Errorf "error deleting Lambda Function Url (%s): %s"
               [fmt.str (Id d); fmt.err e])
    | None => ret []
    end.

(** A callback started on the resource data [d] against the remote
    [r], with no request sent yet. *)
Definition run {A} (c : M A) (d : ResourceData) (r : R) : outcome A * World :=
  c {| data := d; remote := r; calls := [] |}.

End Callbacks.

Arguments ret {R A} a _.
Arguments getData {R} _.
Arguments run {R A} c d r.

(* ================================================================= *)
(** ** Concrete remotes and resource data used by the examples *)

Module Scenario.

(** A remote that answers each operation from a fixed script, whatever
    the request. *)
Record Script : Type := {
  createAnswer : lambda.CreateFunctionUrlConfigOutput + error;
  permissionAnswer : unit + error;
  getAnswer : lambda.GetFunctionUrlConfigOutput + error;
  updateAnswer : unit + error;
  deleteAnswer : unit + error
}.

Definition scripted (s : Script) : lambda.Conn unit :=
  {| lambda.CreateFunctionUrlConfigWithContext := fun _ r => (createAnswer s, r);
     lambda.AddPermissionWithContext := fun _ r => (permissionAnswer s, r);
     lambda.GetFunctionUrlConfig := fun _ r => (getAnswer s, r);
     lambda.UpdateFunctionUrlConfig := fun _ r => (updateAnswer s, r);
     lambda.DeleteFunctionUrlConfig := fun _ r => (deleteAnswer s, r) |}.

Definition arn : string :=
  "arn:aws:lambda:us-east-1:123456789012:function:my-function:live".

Definition url : string := "https://abc123.lambda-url.us-east-1.on.aws/".

Definition described (auth : string) : lambda.GetFunctionUrlConfigOutput :=
  {| lambda.got_AuthType := Some auth;
     lambda.got_Cors := None;
     lambda.got_FunctionArn := Some arn;
     lambda.got_FunctionUrl := Some url |}.

(** Every operation succeeds. *)
Definition healthy (auth : string) : Script :=
  {| createAnswer := inl {| lambda.created_FunctionArn := Some arn |};
     permissionAnswer := inl tt;
     getAnswer := inl (described auth);
     updateAnswer := inl tt;
     deleteAnswer := inl tt |}.

(** Every operation fails with the same error. *)
Definition failing (e : error) : Script :=
  {| createAnswer := inr e;
     permissionAnswer := inr e;
     getAnswer := inr e;
     updateAnswer := inr e;
     deleteAnswer := inr e |}.

(** The function URL was created, but reading it back fails. *)
Definition createdThenUnreadable (e : error) : Script :=
  {| createAnswer := inl {| lambda.created_FunctionArn := Some arn |};
     permissionAnswer := inl tt;
     getAnswer := inr e;
     updateAnswer := inl tt;
     deleteAnswer := inl tt |}.

Definition notFound : error :=
  awsError lambda.ErrCodeResourceNotFoundException "The resource you requested does not exist.".

Definition accessDenied : error :=
  awsError "AccessDeniedException" "not authorized to perform: lambda:GetFunctionUrlConfig".

(** One rendering of errors under a bad verb. *)
Definition goRuntime : fmt.Reflection :=
  {| fmt.TypeOf := fun _ => "*awserr.requestError";
     fmt.GoValue := fun _ => "&{0xc000123456 403 7f3c []}" |}.

(** A stand-in for [flex.ExpandStringList]; no example below reaches
    it. *)
Definition noStrings (configured : list value) : list (option string) := [].

Definition attributes (auth : string) (c : list value) (q : string) : Attributes :=
  {| authorization_type := auth; cors := c; function_arn := "";
     function_name := "my-function"; function_url := ""; qualifier := q |}.

Definition unset : Attributes :=
  {| authorization_type := ""; cors := []; function_arn := "";
     function_name := ""; function_url := ""; qualifier := "" |}.

(** A resource that is being created. *)
Definition planned (auth : string) : ResourceData :=
  {| Id := ""; IsNewResource := true;
     prior := unset; current := attributes auth [] "live" |}.

(** A resource that is in the state already; its configuration changes
    the authorization type from [old] to [new]. *)
Definition existing (old new : string) : ResourceData :=
  {| Id := arn; IsNewResource := false;
     prior := attributes old [] "live"; current := attributes new [] "live" |}.

(** A resource the create callback has just given an ID. *)
Definition justCreated (auth : string) : ResourceData :=
  {| Id := arn; IsNewResource := true;
     prior := unset; current := attributes auth [] "live" |}.

(** A CORS block as the SDK decodes it: the [TypeSet] attributes are
    sets. *)
Definition corsBlock : value :=
  VMap [ ("allow_credentials", VBool true);
         ("allow_headers", VSet [VString "date"]);
         ("allow_methods", VSet [VString "GET"]);
         ("allow_origins", VSet [VString "*"]);
         ("expose_headers", VSet []);
         ("max_age", VInt 3600) ].

(** A resource whose configuration drops its CORS block. *)
Definition corsRemoved : ResourceData :=
  {| Id := arn; IsNewResource := false;
     prior := attributes "AWS_IAM" [corsBlock] "";
     current := attributes "AWS_IAM" [] "" |}.

(** A resource to import under the given ID. *)
Definition imported (id : string) : ResourceData :=
  {| Id := id; IsNewResource := false; prior := unset; current := unset |}.

(** A CORS block whose header, method and origin attributes are slices,
    the only shape the converter accepts. *)
Definition sliceBlock (maxAge : Z) : value :=
  VMap [ ("allow_credentials", VBool false);
         ("allow_headers", VList [VString "date"]);
         ("allow_methods", VList []);
         ("allow_origins", VList [VString "*"]);
         ("expose_headers", VList []);
         ("max_age", VInt maxAge) ].

(** A resource that is being created with a CORS block of sets. *)
Definition plannedWithCors : ResourceData :=
  {| Id := ""; IsNewResource := true;
     prior := unset; current := attributes "AWS_IAM" [corsBlock] "live" |}.

(** The update succeeds, but the function URL is gone when it is read
    back. *)
Definition updatedThenGone : Script :=
  {| createAnswer := inr notFound;
     permissionAnswer := inr notFound;
     getAnswer := inr notFound;
     updateAnswer := inl tt;
     deleteAnswer := inl tt |}.

(** The function URL is created, but the permission is refused. *)
Definition permissionRefused : Script :=
  {| createAnswer := inl {| lambda.created_FunctionArn := Some arn |};
     permissionAnswer := inr accessDenied;
     getAnswer := inl (described "NONE");
     updateAnswer := inl tt;
     deleteAnswer := inl tt |}.

(** A parser of function ARNs for the examples: the last colon-separated
    field of a seven-field ARN. *)
Definition nameFromARN (arn : string) : string * option error :=
  match Split arn ":" with
  | [_; _; _; _; _; _; name] => (name, None)
  | _ => ("", Some (plainError "invalid ARN"))
  end.

End Scenario.

(* ================================================================= *)
(** ** [strings.Split] and the indexing of its result *)

Section SplitFacts.

Variable sep : ascii.

Lemma Split_not_nil (s : string) : Split s sep <> [].
Proof.
  destruct s as [|c rest]; simpl; [discriminate|].
  destruct (Ascii.eqb c sep); [discriminate|].
  destruct (Split rest sep); discriminate.
Qed.

(** Without the separator the whole string is the only segment. *)
Lemma Split_without_separator (s : string) :
  ContainsByte sep s = false -> Split s sep = [s].
Proof.
  induction s as [|c rest IH]; simpl; intros H; [reflexivity|].
  apply orb_false_iff in H as [Hc Hrest].
  rewrite Hc, (IH Hrest). reflexivity.
Qed.

(** With the separator there are at least two segments. *)
Lemma Split_with_separator (s : string) :
  ContainsByte sep s = true -> (2 <= length (Split s sep))%nat.
Proof.
  induction s as [|c rest IH]; simpl; intros H; [discriminate|].
  destruct (Ascii.eqb c sep) eqn:Hc.
  - pose proof (Split_not_nil rest) as Hne.
    destruct (Split rest sep); [contradiction|simpl; lia].
  - simpl in H. specialize (IH H).
    destruct (Split rest sep); simpl in *; lia.
Qed.

(** Joining the segments with the separator gives the string back, so
    the segments are the separator-delimited fields of the string. *)
Lemma Join_Split (s : string) : Join (Split s sep) (String sep "") = s.
Proof.
  induction s as [|c rest IH]; simpl; [reflexivity|].
  destruct (Ascii.eqb c sep) eqn:Hc.
  - apply Ascii.eqb_eq in Hc. subst c.
    pose proof (Split_not_nil rest) as Hne.
    destruct (Split rest sep) as [|seg segs] eqn:E; [contradiction|].
    simpl. simpl in IH. rewrite IH. reflexivity.
  - pose proof (Split_not_nil rest) as Hne.
    destruct (Split rest sep) as [|seg segs] eqn:E; [contradiction|].
    destruct segs as [|seg' segs'].
    + simpl in *. now rewrite IH.
    + simpl in *. now rewrite IH.
Qed.

(** No segment holds the separator. *)
Lemma Split_segments_clean (s : string) :
  Forall (fun seg => ContainsByte sep seg = false) (Split s sep).
Proof.
  induction s as [|c rest IH]; simpl.
  - constructor; [reflexivity|constructor].
  - destruct (Ascii.eqb c sep) eqn:Hc.
    + constructor; [reflexivity|exact IH].
    + destruct (Split rest sep) as [|seg segs].
      * constructor; [simpl; now rewrite Hc|constructor].
      * inversion IH; subst. constructor; [simpl; now rewrite Hc|assumption].
Qed.

(** A clean segment followed by the separator is split off. *)
Lemma Split_segment (seg rest : string) :
  ContainsByte sep seg = false ->
  Split (seg ++ String sep rest) sep = seg :: Split rest sep.
Proof.
  induction seg as [|c seg IH]; simpl; intros H.
  - now rewrite Ascii.eqb_refl.
  - apply orb_false_iff in H as [Hc Hseg].
    rewrite Hc, (IH Hseg). reflexivity.
Qed.

(** Splitting what was joined from clean segments gives the segments
    back. *)
Lemma Split_Join (segs : list string) :
  segs <> [] ->
  Forall (fun seg => ContainsByte sep seg = false) segs ->
  Split (Join segs (String sep "")) sep = segs.
Proof.
  induction segs as [|seg [|seg' segs] IH]; intros Hne Hclean.
  - contradiction.
  - inversion Hclean; subst. simpl. now apply Split_without_separator.
  - inversion Hclean as [|? ? Hseg Hrest]; subst.
    change (Join (seg :: seg' :: segs) (String sep ""))
      with ((seg ++ String sep (Join (seg' :: segs) (String sep "")))%string).
    rewrite Split_segment by assumption.
    rewrite IH; [reflexivity|discriminate|assumption].
Qed.

End SplitFacts.

Lemma two_last {A} (xs : list A) :
  (2 <= length xs)%nat -> exists front a b, xs = front ++ [a; b].
Proof.
  induction xs as [|x xs IH]; simpl; intros H; [lia|].
  destruct xs as [|y ys]; simpl in *; [lia|].
  destruct ys as [|z zs].
  - exists [], x, y. reflexivity.
  - destruct IH as (front & a & b & E); [simpl; lia|].
    exists (x :: front), a, b. simpl. now rewrite E.
Qed.

Lemma index_second_to_last {A} (front : list A) (a b : A) :
  index (front ++ [a; b]) (len (front ++ [a; b]) - 2) = Returned a.
Proof.
  unfold index, len. rewrite length_app. simpl.
  destruct (_ <? 0)%Z eqn:E; [apply Z.ltb_lt in E; lia|].
  replace (Z.to_nat _) with (length front + 0)%nat by lia.
  now rewrite nth_error_app2, Nat.add_comm, Nat.add_sub by lia.
Qed.

Lemma index_last {A} (front : list A) (a b : A) :
  index (front ++ [a; b]) (len (front ++ [a; b]) - 1) = Returned b.
Proof.
  unfold index, len. rewrite length_app. simpl.
  destruct (_ <? 0)%Z eqn:E; [apply Z.ltb_lt in E; lia|].
  replace (Z.to_nat _) with (length front + 1)%nat by lia.
  now rewrite nth_error_app2, Nat.add_comm, Nat.add_sub by lia.
Qed.

(* ================================================================= *)
(** ** The importer *)

(** The importer on an ID whose last two segments are known. *)
Lemma import_of_segments (d : ResourceData) front functionName qual :
  Split (Id d) ":" = front ++ [functionName; qual] ->
  resourceFunctionUrlImport d =
    Returned ([Set_qualifier (Set_function_name d functionName) qual], None).
Proof.
  intros E. unfold resourceFunctionUrlImport. rewrite E.
  rewrite index_second_to_last, index_last. reflexivity.
Qed.

(** The importer on an ID written as colon-joined segments: the last two
    segments become the function name and the qualifier. *)
Lemma import_of_joined (d : ResourceData) front functionName qual :
  Forall (fun seg => ContainsByte ":" seg = false) (front ++ [functionName; qual]) ->
  Id d = Join (front ++ [functionName; qual]) ":" ->
  resourceFunctionUrlImport d =
    Returned ([Set_qualifier (Set_function_name d functionName) qual], None).
Proof.
  intros Hclean E. apply import_of_segments with (front := front).
  rewrite E. apply Split_Join; [|assumption].
  destruct front; discriminate.
Qed.

(** The importer on an ID without a colon. *)
Lemma import_without_colon (d : ResourceData) :
  ContainsByte ":" (Id d) = false ->
  resourceFunctionUrlImport d = Panicked "index out of range".
Proof.
  intros H. unfold resourceFunctionUrlImport.
  rewrite (Split_without_separator _ _ H). reflexivity.
Qed.

(** C4, at an ID without a colon: the importer panics on the ID
    [my-function] and sets neither attribute. *)
Lemma import_bare_name_panics :
  resourceFunctionUrlImport (Scenario.imported "my-function")
  = Panicked "index out of range".
Proof. reflexivity. Qed.

(** C4, amended: for every import ID that contains a colon, the importer
    sets [function_name] to the second-to-last colon-separated segment of
    the ID and [qualifier] to the last one, and returns the resource data
    it was given with no error. *)
Theorem import_sets_last_two_segments (d : ResourceData) :
  ContainsByte ":" (Id d) = true ->
  exists front functionName qual d',
    Split (Id d) ":" = front ++ [functionName; qual] /\
    resourceFunctionUrlImport d = Returned ([d'], None) /\
    function_name (current d') = functionName /\
    qualifier (current d') = qual /\
    Id d' = Id d.
Proof.
  intros H.
  destruct (two_last _ (Split_with_separator _ _ H)) as (front & fn & q & E).
  exists front, fn, q, (Set_qualifier (Set_function_name d fn) q).
  split; [exact E|]. split; [exact (import_of_segments d _ _ _ E)|].
  repeat split.
Qed.

Lemma import_sets_last_two_segments_witness :
  ContainsByte ":" (Id (Scenario.imported Scenario.arn)) = true /\
  exists front functionName qual d',
    Split (Id (Scenario.imported Scenario.arn)) ":" = front ++ [functionName; qual] /\
    resourceFunctionUrlImport (Scenario.imported Scenario.arn) = Returned ([d'], None) /\
    function_name (current d') = functionName /\
    qualifier (current d') = qual /\
    Id d' = Id (Scenario.imported Scenario.arn).
Proof.
  split; [reflexivity|].
  apply (import_sets_last_two_segments (Scenario.imported Scenario.arn)).
  reflexivity.
Defined.

(** C5: the importer returns without a panic exactly on the IDs that
    contain a colon.  On an ID without one, [strings.Split] yields the ID
    as its single segment and the access at index [len - 2] is out of
    range; on an ID with one, the importer returns one resource data and a
    nil error. *)
Theorem import_total_iff_colon (d : ResourceData) :
  match resourceFunctionUrlImport d with
  | Returned (ds, e) =>
      ContainsByte ":" (Id d) = true /\ length ds = 1%nat /\ e = None
  | Panicked reason =>
      ContainsByte ":" (Id d) = false /\
      Split (Id d) ":" = [Id d] /\
      index (Split (Id d) ":") (len (Split (Id d) ":") - 2) = Panicked reason
  end.
Proof.
  destruct (ContainsByte ":" (Id d)) eqn:H.
  - destruct (two_last _ (Split_with_separator _ _ H)) as (front & fn & q & E).
    rewrite (import_of_segments d _ _ _ E). auto.
  - rewrite (import_without_colon d H).
    rewrite (Split_without_separator _ _ H). auto.
Qed.

(* ================================================================= *)
(** ** Equality of values *)

Lemma all2_eq {A} (eq : A -> A -> bool) (xs : list A) :
  Forall (fun x => forall y, eq x y = true <-> x = y) xs ->
  forall ys, all2 eq xs ys = true <-> xs = ys.
Proof.
  induction 1 as [|x xs Hx _ IH]; intros [|y ys]; simpl;
    try (split; [discriminate|discriminate]); [tauto|].
  rewrite andb_true_iff, Hx, IH.
  split; [intros [-> ->]; reflexivity|intros E; inversion E; auto].
Qed.

(** [value_eqb] decides equality. *)
Lemma value_eqb_eq (a b : value) : value_eqb a b = true <-> a = b.
Proof.
  revert b. induction a as [ | x | x | x | xs IH | xs IH | xs IH ]
    using value_nested_ind; intros [ | y | y | y | ys | ys | ys ]; simpl;
    try (split; [discriminate|discriminate]); try tauto.
  - rewrite Bool.eqb_true_iff. split; [now intros ->|now inversion 1].
  - rewrite Z.eqb_eq. split; [now intros ->|now inversion 1].
  - rewrite String.eqb_eq. split; [now intros ->|now inversion 1].
  - rewrite (all2_eq _ IH). split; [now intros ->|now inversion 1].
  - rewrite (all2_eq _ IH). split; [now intros ->|now inversion 1].
  - rewrite all2_eq; [split; [now intros ->|now inversion 1]|].
    clear ys. induction IH as [|[k x] xs Hx _ IHxs]; constructor; [|assumption].
    intros [k' y]. simpl in *.
    rewrite andb_true_iff, String.eqb_eq, Hx.
    split; [intros [-> ->]; reflexivity|intros E; inversion E; auto].
Qed.

Lemma HasChange_authorization_type_iff (d : ResourceData) :
  HasChange_authorization_type d = true <->
  authorization_type (prior d) <> authorization_type (current d).
Proof.
  unfold HasChange_authorization_type.
  rewrite negb_true_iff, String.eqb_neq. tauto.
Qed.

Lemma HasChange_cors_iff (d : ResourceData) :
  HasChange_cors d = true <-> cors (prior d) <> cors (current d).
Proof.
  unfold HasChange_cors. rewrite negb_true_iff.
  split.
  - intros H E. rewrite E in H.
    assert (T : value_eqb (VList (cors (current d))) (VList (cors (current d))) = true)
      by now apply value_eqb_eq.
    congruence.
  - intros H. destruct (value_eqb _ _) eqn:E; [|reflexivity].
    apply value_eqb_eq in E. inversion E. contradiction.
Qed.

(* ================================================================= *)
(** ** The CORS converter *)

(** Without a block, or with a nil block, the converter returns the empty
    [Cors]. *)
Lemma expand_no_block (expandStrings : list value -> list (option string)) :
  expandFunctionUrlCorsConfigs expandStrings [] = Returned lambda.emptyCors /\
  expandFunctionUrlCorsConfigs expandStrings [VNil] = Returned lambda.emptyCors.
Proof. split; reflexivity. Qed.

(** The converter asserts that the header, method and origin attributes are
    slices; on a block that holds them as sets the assertion panics. *)
Lemma expand_block_of_sets_panics
    (expandStrings : list value -> list (option string)) :
  expandFunctionUrlCorsConfigs expandStrings [Scenario.corsBlock]
  = Panicked "interface conversion: not []interface {}".
Proof. reflexivity. Qed.

(* ================================================================= *)
(** ** The callbacks against an arbitrary remote *)

Section CallbackFacts.

Variable R : Type.
Variable conn : lambda.Conn R.
Context {reflection : fmt.Reflection}.
Variable ExpandStringList : list value -> list (option string).
Variable storedList : list value -> list value.

Local Abbreviation Read := (resourceFunctionURLRead conn storedList).
Local Abbreviation Create := (resourceFunctionURLCreate conn ExpandStringList storedList).
Local Abbreviation Update := (resourceFunctionURLUpdate conn ExpandStringList storedList).
Local Abbreviation Delete := (resourceFunctionURLDelete conn).

Ltac step_callback :=
  cbv beta iota zeta delta
    [run resourceFunctionURLRead resourceFunctionURLCreate
     resourceFunctionURLUpdate resourceFunctionURLDelete
     bind ret lift getData modifyData send];
  cbn [data remote calls].

Ltac settle :=
  cbv beta iota zeta;
  cbn [data remote calls SetId current Id IsNewResource fst snd app].

(** A read sends one [GetFunctionUrlConfig] request, built from the
    resource data, after whatever was sent before. *)
Lemma read_calls (w : World R) :
  calls (snd (Read w)) = calls w ++ [lambda.CallGetFunctionUrlConfig (getInput (data w))].
Proof.
  step_callback.
  destruct (lambda.GetFunctionUrlConfig conn _ _) as [[output|e] r'].
  - reflexivity.
  - destruct (isNotFound e && negb (IsNewResource _)); reflexivity.
Qed.

(** A read never panics. *)
Lemma read_returns (w : World R) : exists ds, fst (Read w) = Returned ds.
Proof.
  step_callback.
  destruct (lambda.GetFunctionUrlConfig conn _ _) as [[output|e] r'].
  - eexists; reflexivity.
  - destruct (isNotFound e && negb (IsNewResource _)); eexists; reflexivity.
Qed.

(** A read that is answered with an error. *)
Lemma read_error (w : World R) (e : error) (r' : R) :
  lambda.GetFunctionUrlConfig conn (getInput (data w)) (remote w) = (inr e, r') ->
  Read w =
    if isNotFound e && negb (IsNewResource (data w))
    then (Returned [],
          {| data := SetId (data w) ""; remote := r';
             calls := calls w ++ [lambda.CallGetFunctionUrlConfig (getInput (data w))] |})
    else (Returned (diag_Errorf "error getting Lambda Function Url Config (%s): %w"
                      [fmt.str (Id (data w)); fmt.err e]),
          {| data := data w; remote := r';
             calls := calls w ++ [lambda.CallGetFunctionUrlConfig (getInput (data w))] |}).
Proof.
  intros H. step_callback. rewrite H.
  destruct (isNotFound e && negb (IsNewResource _)); reflexivity.
Qed.

(** A read that is answered with a description returns no diagnostics and
    keeps the ID. *)
Lemma read_success (w : World R) output (r' : R) :
  lambda.GetFunctionUrlConfig conn (getInput (data w)) (remote w) = (inl output, r') ->
  fst (Read w) = Returned [] /\ Id (data (snd (Read w))) = Id (data w).
Proof.
  intros H. step_callback. rewrite H. split; reflexivity.
Qed.

(** An [awserr.Error] with the not-found code is recognised by both
    tests. *)
Lemma isNotFound_awsError (message : string) :
  isNotFound (awsError lambda.ErrCodeResourceNotFoundException message) = true.
Proof. reflexivity. Qed.

Lemma isNotFound_inv (e : error) :
  isNotFound e = true ->
  exists message, e = awsError lambda.ErrCodeResourceNotFoundException message.
Proof.
  destruct e as [code message| |]; simpl; try discriminate.
  unfold isNotFound; simpl. intros H. apply String.eqb_eq in H. subst.
  now exists message.
Qed.

(** C1: when [DeleteFunctionUrlConfig] answers with an error whose code
    is [ResourceNotFoundException], the delete callback returns nil
    diagnostics; it has sent that one request and left the resource data
    alone. *)
Theorem delete_not_found_succeeds
    (d : ResourceData) (r r' : R) (e : error) (message : string) :
  lambda.DeleteFunctionUrlConfig conn (deleteParams d) r = (inr e, r') ->
  As_awserr e = Some (lambda.ErrCodeResourceNotFoundException, message) ->
  run Delete d r =
    (Returned [],
     {| data := d; remote := r';
        calls := [lambda.CallDeleteFunctionUrlConfig (deleteParams d)] |}).
Proof.
  intros Hanswer Hcode. step_callback. rewrite Hanswer.
  unfold ErrCodeEquals. rewrite Hcode. reflexivity.
Qed.

(** C2, amended: when [GetFunctionUrlConfig] answers with an
    [awserr.Error] whose code is [ResourceNotFoundException], a read of a
    resource that is not new clears the ID and returns nil diagnostics; a
    read of a new resource keeps the ID and returns one error
    diagnostic. *)
Theorem read_not_found
    (d : ResourceData) (r r' : R) (message : string) :
  lambda.GetFunctionUrlConfig conn (getInput d) r
    = (inr (awsError lambda.ErrCodeResourceNotFoundException message), r') ->
  if IsNewResource d
  then (exists dg, fst (run Read d r) = Returned [dg] /\ diag.severity dg = diag.Error)
       /\ Id (data (snd (run Read d r))) = Id d
  else fst (run Read d r) = Returned [] /\ Id (data (snd (run Read d r))) = "".
Proof.
  intros Hanswer. unfold run.
  rewrite (read_error {| data := d; remote := r; calls := [] |} Hanswer).
  rewrite isNotFound_awsError. simpl.
  destruct (IsNewResource d); simpl.
  - split; [eexists; split; reflexivity|reflexivity].
  - split; reflexivity.
Qed.

(** The request builders read the attributes only, so the ID the create
    callback sets does not change them. *)
Lemma getInput_SetId (d : ResourceData) (id : string) :
  getInput (SetId d id) = getInput d.
Proof. reflexivity. Qed.

Lemma permissionInput_SetId (d : ResourceData) (id v : string) :
  permissionInput (SetId d id) v = permissionInput d v.
Proof. reflexivity. Qed.

(** A create whose request builder panics sends nothing. *)
Lemma create_panicked (d : ResourceData) (r : R) (reason : string) :
  createInput ExpandStringList d = Panicked reason ->
  run Create d r = (Panicked reason, {| data := d; remote := r; calls := [] |}).
Proof. intros H. step_callback. rewrite H. reflexivity. Qed.

(** A create whose first request fails stops there. *)
Lemma create_failed (d : ResourceData) (r r1 : R) input (e : error) :
  createInput ExpandStringList d = Returned input ->
  lambda.CreateFunctionUrlConfigWithContext conn input r = (inr e, r1) ->
  run Create d r =
    (Returned (diag_Errorf "error creating Lambda Function URL (%s): %s"
                 [fmt.str (function_name (current d)); fmt.err e]),
     {| data := d; remote := r1;
        calls := [lambda.CallCreateFunctionUrlConfig input] |}).
Proof. intros H A. step_callback. rewrite H, A. reflexivity. Qed.

(** A create with another authorization type than [NONE] goes from the
    created function URL straight to the read. *)
Lemma create_without_permission (d : ResourceData) (r r1 : R) input output :
  createInput ExpandStringList d = Returned input ->
  lambda.CreateFunctionUrlConfigWithContext conn input r = (inl output, r1) ->
  String.eqb (authorization_type (current d)) lambda.FunctionUrlAuthTypeNone = false ->
  run Create d r =
    Read {| data := SetId d (aws_StringValue (lambda.created_FunctionArn output));
            remote := r1;
            calls := [lambda.CallCreateFunctionUrlConfig input] |}.
Proof.
  intros H A N. step_callback. rewrite H, A. settle.
  rewrite N; settle. reflexivity.
Qed.

(** A create with [NONE] sends [AddPermission] next and stops when that
    fails. *)
Lemma create_permission_failed
    (d : ResourceData) (r r1 r2 : R) input output (e : error) :
  createInput ExpandStringList d = Returned input ->
  lambda.CreateFunctionUrlConfigWithContext conn input r = (inl output, r1) ->
  String.eqb (authorization_type (current d)) lambda.FunctionUrlAuthTypeNone = true ->
  lambda.AddPermissionWithContext conn
    (permissionInput d (authorization_type (current d))) r1 = (inr e, r2) ->
  run Create d r =
    (Returned (diag_Errorf "error adding Lambda Function URL (%s) permission %s"
                 [fmt.str (aws_StringValue (lambda.created_FunctionArn output));
                  fmt.err e]),
     {| data := SetId d (aws_StringValue (lambda.created_FunctionArn output));
        remote := r2;
        calls := [lambda.CallCreateFunctionUrlConfig input;
                  lambda.CallAddPermission
                    (permissionInput d (authorization_type (current d)))] |}).
Proof.
  intros H A N P. step_callback. rewrite H, A. settle.
  rewrite N; settle. rewrite permissionInput_SetId, P; settle. reflexivity.
Qed.

Lemma create_with_permission
    (d : ResourceData) (r r1 r2 : R) input output :
  createInput ExpandStringList d = Returned input ->
  lambda.CreateFunctionUrlConfigWithContext conn input r = (inl output, r1) ->
  String.eqb (authorization_type (current d)) lambda.FunctionUrlAuthTypeNone = true ->
  lambda.AddPermissionWithContext conn
    (permissionInput d (authorization_type (current d))) r1 = (inl tt, r2) ->
  run Create d r =
    Read {| data := SetId d (aws_StringValue (lambda.created_FunctionArn output));
            remote := r2;
            calls := [lambda.CallCreateFunctionUrlConfig input;
                      lambda.CallAddPermission
                        (permissionInput d (authorization_type (current d)))] |}.
Proof.
  intros H A N P. step_callback. rewrite H, A. settle.
  rewrite N; settle. rewrite permissionInput_SetId, P; settle. reflexivity.
Qed.

(** The requests of a create that got its function URL created: the
    create request, then [AddPermission] exactly under [NONE], then the
    read's request unless [AddPermission] failed. *)
Lemma create_calls (d : ResourceData) (r r1 : R) input output :
  createInput ExpandStringList d = Returned input ->
  lambda.CreateFunctionUrlConfigWithContext conn input r = (inl output, r1) ->
  calls (snd (run Create d r)) =
    lambda.CallCreateFunctionUrlConfig input ::
    if String.eqb (authorization_type (current d)) lambda.FunctionUrlAuthTypeNone
    then lambda.CallAddPermission (permissionInput d (authorization_type (current d))) ::
         match fst (lambda.AddPermissionWithContext conn
                      (permissionInput d (authorization_type (current d))) r1) with
         | inl _ => [lambda.CallGetFunctionUrlConfig (getInput d)]
         | inr _ => []
         end
    else [lambda.CallGetFunctionUrlConfig (getInput d)].
Proof.
  intros H A.
  destruct (String.eqb (authorization_type (current d)) _) eqn:N.
  - destruct (lambda.AddPermissionWithContext conn _ r1) as [[[]|e] r2] eqn:P.
    + rewrite (create_with_permission _ _ H A N P), read_calls. reflexivity.
    + rewrite (create_permission_failed _ _ H A N P). reflexivity.
  - rewrite (create_without_permission _ _ H A N), read_calls. reflexivity.
Qed.

(** C3: once [CreateFunctionUrlConfig] has succeeded, the create callback
    sends an [AddPermission] request if and only if [authorization_type]
    is [NONE]; the request comes right after the create request, is the
    only one of its kind, and names the action [lambda:InvokeFunctionUrl],
    the principal [*] and the statement [FunctionURLAllowPublicAccess]. *)
Theorem create_adds_permission_iff_none
    (d : ResourceData) (r r1 : R) input output :
  createInput ExpandStringList d = Returned input ->
  lambda.CreateFunctionUrlConfigWithContext conn input r = (inl output, r1) ->
  (authorization_type (current d) = "NONE" <->
   exists p, In (lambda.CallAddPermission p) (calls (snd (run Create d r)))) /\
  (forall p, In (lambda.CallAddPermission p) (calls (snd (run Create d r))) ->
     (exists rest,
        calls (snd (run Create d r)) =
          lambda.CallCreateFunctionUrlConfig input :: lambda.CallAddPermission p :: rest /\
        forall q, ~ In (lambda.CallAddPermission q) rest) /\
     lambda.perm_Action p = Some "lambda:InvokeFunctionUrl" /\
     lambda.perm_FunctionName p = Some (function_name (current d)) /\
     lambda.perm_FunctionUrlAuthType p = Some "NONE" /\
     lambda.perm_Principal p = Some "*" /\
     lambda.perm_StatementId p = Some "FunctionURLAllowPublicAccess").
Proof.
  intros H A.
  rewrite create_calls with (input := input) (output := output) (r1 := r1)
    by assumption.
  destruct (String.eqb (authorization_type (current d)) _) eqn:N.
  - apply String.eqb_eq in N. change lambda.FunctionUrlAuthTypeNone with "NONE" in N.
    rewrite N.
    assert (Hrest : forall q,
      ~ In (lambda.CallAddPermission q)
          match fst (lambda.AddPermissionWithContext conn (permissionInput d "NONE") r1) with
          | inl _ => [lambda.CallGetFunctionUrlConfig (getInput d)]
          | inr _ => []
          end).
    { intros q. destruct (fst _); simpl; [intros [X|[]]; discriminate|tauto]. }
    split.
    + split; [intros _|reflexivity]. eexists. right. left. reflexivity.
    + intros p [X|[X|X]]; [discriminate| |destruct (Hrest _ X)].
      inversion X; subst p. split; [|repeat split].
      eexists. split; [reflexivity|exact Hrest].
  - apply String.eqb_neq in N. change lambda.FunctionUrlAuthTypeNone with "NONE" in N.
    split.
    + split; [contradiction|]. intros [p [X|[X|[]]]]; discriminate.
    + intros p [X|[X|[]]]; discriminate.
Qed.

(** An update whose request builder panics sends nothing. *)
Lemma update_panicked (d : ResourceData) (r : R) (reason : string) :
  updateParams ExpandStringList d = Panicked reason ->
  run Update d r = (Panicked reason, {| data := d; remote := r; calls := [] |}).
Proof. intros H. step_callback. rewrite H. reflexivity. Qed.

Lemma update_failed (d : ResourceData) (r r1 : R) params (e : error) :
  updateParams ExpandStringList d = Returned params ->
  lambda.UpdateFunctionUrlConfig conn params r = (inr e, r1) ->
  run Update d r =
    (Returned (diag_Errorf "error updating Lambda Function Url (%s): %s"
                 [fmt.str (Id d); fmt.err e]),
     {| data := d; remote := r1;
        calls := [lambda.CallUpdateFunctionUrlConfig params] |}).
Proof. intros H A. step_callback. rewrite H, A. reflexivity. Qed.

Lemma update_succeeded (d : ResourceData) (r r1 : R) params :
  updateParams ExpandStringList d = Returned params ->
  lambda.UpdateFunctionUrlConfig conn params r = (inl tt, r1) ->
  run Update d r =
    Read {| data := d; remote := r1;
            calls := [lambda.CallUpdateFunctionUrlConfig params] |}.
Proof. intros H A. step_callback. rewrite H, A. reflexivity. Qed.

(** The requests of an update: the update request, then the read's request
    when the update succeeded. *)
Lemma update_calls (d : ResourceData) (r : R) params :
  updateParams ExpandStringList d = Returned params ->
  calls (snd (run Update d r)) =
    lambda.CallUpdateFunctionUrlConfig params ::
    match fst (lambda.UpdateFunctionUrlConfig conn params r) with
    | inl _ => [lambda.CallGetFunctionUrlConfig (getInput d)]
    | inr _ => []
    end.
Proof.
  intros H.
  destruct (lambda.UpdateFunctionUrlConfig conn params r) as [[[]|e] r1] eqn:A.
  - rewrite update_succeeded with (params := params) (r1 := r1) by assumption.
    rewrite read_calls. reflexivity.
  - rewrite update_failed with (params := params) (r1 := r1) (e := e) by assumption.
    reflexivity.
Qed.


Lemma delete_returns (d : ResourceData) (r : R) :
  exists ds, fst (run Delete d r) = Returned ds.
Proof.
  step_callback.
  destruct (lambda.DeleteFunctionUrlConfig conn _ _) as [[[]|e] r1]; settle.
  - eexists; reflexivity.
  - destruct (ErrCodeEquals _ _); eexists; reflexivity.
Qed.

(** A delete that is answered with an error outside the not-found code
    reports it. *)
Lemma delete_failed (d : ResourceData) (r r1 : R) (e : error) :
  lambda.DeleteFunctionUrlConfig conn (deleteParams d) r = (inr e, r1) ->
  ErrCodeEquals (Some e) lambda.ErrCodeResourceNotFoundException = false ->
  fst (run Delete d r) =
    Returned (diag_Errorf "error deleting Lambda Function Url (%s): %s"
                [fmt.str (Id d); fmt.err e]).
Proof. intros A N. step_callback. rewrite A; settle. rewrite N. reflexivity. Qed.


(** The fields of the update request. *)
Lemma updateParams_fields (d : ResourceData) params :
  updateParams ExpandStringList d = Returned params ->
  lambda.update_FunctionName params = Some (function_name (current d)) /\
  lambda.update_Qualifier params =
    (if String.eqb (qualifier (current d)) "" then None
     else Some (qualifier (current d))) /\
  lambda.update_AuthType params =
    (if HasChange_authorization_type d
     then Some (authorization_type (current d)) else None) /\
  (if HasChange_cors d
   then exists c, lambda.update_Cors params = Some c /\
          expandFunctionUrlCorsConfigs ExpandStringList (cors (current d)) = Returned c
   else lambda.update_Cors params = None).
Proof.
  unfold updateParams, GetOk_string.
  destruct (HasChange_cors d).
  - destruct (expandFunctionUrlCorsConfigs _ _) as [c|reason]; simpl; [|discriminate].
    intros E. inversion E; subst params; clear E. cbn.
    repeat split; [destruct (String.eqb _ ""); reflexivity|].
    exists c. split; reflexivity.
  - simpl. intros E. inversion E; subst params; clear E. cbn.
    repeat split. destruct (String.eqb _ ""); reflexivity.
Qed.

(** The update request is built and sent whenever [cors] is unchanged. *)
Lemma updateParams_returns (d : ResourceData) :
  cors (prior d) = cors (current d) ->
  exists params, updateParams ExpandStringList d = Returned params.
Proof.
  intros E. unfold updateParams.
  destruct (HasChange_cors d) eqn:C.
  - apply HasChange_cors_iff in C. contradiction.
  - eexists. reflexivity.
Qed.

(** C9: the [UpdateFunctionUrlConfig] request the update callback sends
    carries [FunctionName]; it carries [Qualifier] exactly when the
    qualifier is set (non-empty); it carries [AuthType], the configured
    value, if and only if [authorization_type] has changed; it carries
    [Cors], the converted configuration, if and only if [cors] has
    changed. *)
Theorem update_request_fields (d : ResourceData) (r : R) params :
  updateParams ExpandStringList d = Returned params ->
  (exists rest,
     calls (snd (run Update d r)) = lambda.CallUpdateFunctionUrlConfig params :: rest /\
     forall p, ~ In (lambda.CallUpdateFunctionUrlConfig p) rest) /\
  lambda.update_FunctionName params = Some (function_name (current d)) /\
  (qualifier (current d) <> "" ->
     lambda.update_Qualifier params = Some (qualifier (current d))) /\
  (qualifier (current d) = "" -> lambda.update_Qualifier params = None) /\
  (authorization_type (prior d) <> authorization_type (current d) <->
     lambda.update_AuthType params <> None) /\
  (forall a, lambda.update_AuthType params = Some a ->
     a = authorization_type (current d)) /\
  (cors (prior d) <> cors (current d) <-> lambda.update_Cors params <> None) /\
  (forall c, lambda.update_Cors params = Some c ->
     expandFunctionUrlCorsConfigs ExpandStringList (cors (current d)) = Returned c).
Proof.
  intros H.
  destruct (updateParams_fields d H) as (Hname & Hq & Ha & Hc).
  split.
  { rewrite update_calls with (params := params) by assumption.
    eexists. split; [reflexivity|].
    intros p. destruct (fst _); simpl; [intros [X|[]]; discriminate|tauto]. }
  split; [exact Hname|].
  rewrite Hq, Ha.
  rewrite <- HasChange_authorization_type_iff, <- HasChange_cors_iff.
  split; [intros N; apply String.eqb_neq in N; now rewrite N|].
  split; [intros N; apply String.eqb_eq in N; now rewrite N|].
  split; [destruct (HasChange_authorization_type d); split;
            try discriminate; try congruence; auto|].
  split; [destruct (HasChange_authorization_type d); intros a E;
            [now inversion E|discriminate]|].
  destruct (HasChange_cors d).
  - destruct Hc as (c & Hc & He). rewrite Hc.
    split; [split; [discriminate|reflexivity]|].
    intros c' E. inversion E; subst. exact He.
  - rewrite Hc. split; [split; [discriminate|congruence]|discriminate].
Qed.

End CallbackFacts.

(* ================================================================= *)
(** ** The text of the error diagnostics *)

Open Scope string_scope.

Lemma append_empty (s : string) : s ++ "" = s.
Proof. induction s as [|c s IH]; simpl; [reflexivity|now rewrite IH]. Qed.

Lemma append_assoc (a b c : string) : (a ++ b) ++ c = a ++ (b ++ c).
Proof. induction a as [|x a IH]; simpl; [reflexivity|now rewrite IH]. Qed.

(** Two strings that end in different bytes are different. *)
Lemma append_last_byte (a b : string) (x y : ascii) :
  a ++ String x "" = b ++ String y "" -> x = y.
Proof.
  revert b. induction a as [|c a IH]; intros [|c' b]; simpl; intros E.
  - now inversion E.
  - inversion E as [[Hc Hrest]]. destruct b; discriminate.
  - inversion E as [[Hc Hrest]]. destruct a; discriminate.
  - inversion E as [[Hc Hrest]]. exact (IH _ Hrest).
Qed.

Section ErrorText.

Context {reflection : fmt.Reflection}.

(** [%s] on an error prints its [Error()] text: the create, update and
    delete callbacks pass the remote error's text on unchanged. *)
Lemma Sprintf_create (name : string) (e : error) :
  fmt.Sprintf "error creating Lambda Function URL (%s): %s" [fmt.str name; fmt.err e]
  = "error creating Lambda Function URL (" ++ name ++ "): " ++ Go.Error e.
Proof. simpl. now rewrite append_empty. Qed.

Lemma Sprintf_permission (id : string) (e : error) :
  fmt.Sprintf "error adding Lambda Function URL (%s) permission %s"
    [fmt.str id; fmt.err e]
  = "error adding Lambda Function URL (" ++ id ++ ") permission " ++ Go.Error e.
Proof. simpl. now rewrite append_empty. Qed.

Lemma Sprintf_update (id : string) (e : error) :
  fmt.Sprintf "error updating Lambda Function Url (%s): %s" [fmt.str id; fmt.err e]
  = "error updating Lambda Function Url (" ++ id ++ "): " ++ Go.Error e.
Proof. simpl. now rewrite append_empty. Qed.

Lemma Sprintf_delete (id : string) (e : error) :
  fmt.Sprintf "error deleting Lambda Function Url (%s): %s" [fmt.str id; fmt.err e]
  = "error deleting Lambda Function Url (" ++ id ++ "): " ++ Go.Error e.
Proof. simpl. now rewrite append_empty. Qed.

(** [%w] is not a verb of [Sprintf]: the read callback's summary holds a
    bad-verb report in the place of the error's text. *)
Lemma Sprintf_read (id : string) (e : error) :
  fmt.Sprintf "error getting Lambda Function Url Config (%s): %w" [fmt.str id; fmt.err e]
  = "error getting Lambda Function Url Config (" ++ id ++ "): %!w("
      ++ fmt.TypeOf e ++ "=" ++ fmt.GoValue e ++ ")".
Proof. simpl. now rewrite append_empty. Qed.

Lemma Sprintf_read_ends (id : string) (e : error) :
  exists body,
    fmt.Sprintf "error getting Lambda Function Url Config (%s): %w"
      [fmt.str id; fmt.err e] = body ++ ")".
Proof.
  exists ("error getting Lambda Function Url Config (" ++ id ++ "): %!w("
            ++ fmt.TypeOf e ++ "=" ++ fmt.GoValue e).
  rewrite Sprintf_read.
  repeat (simpl; rewrite ?append_assoc). reflexivity.
Qed.

End ErrorText.

Open Scope list_scope.

(* ================================================================= *)
(** ** Local validation by the schema *)

(** C6, at two values: the schema rejects the authorization type [BOGUS]
    and the [max_age] 86401 by itself, before any callback runs. *)
Lemma schema_rejects_values :
  schema.accepts ResourceFunctionUrl ["authorization_type"] (VString "BOGUS") = false /\
  schema.accepts ResourceFunctionUrl ["cors"; "max_age"] (VInt 86401) = false.
Proof. split; vm_compute; reflexivity. Qed.

(** C6, amended: the schema validates two attributes locally.  A string is
    accepted as [authorization_type] exactly when it is one of the
    function-URL authorization types, [NONE] and [AWS_IAM], and an integer
    is accepted as [max_age] exactly when it is at most 86400; no other
    attribute carries a validation function. *)
Theorem schema_local_validation :
  (forall s : string,
     schema.accepts ResourceFunctionUrl ["authorization_type"] (VString s) = true
     <-> s = "NONE" \/ s = "AWS_IAM") /\
  (forall n : Z,
     schema.accepts ResourceFunctionUrl ["cors"; "max_age"] (VInt n) = true
     <-> (n <= 86400)%Z) /\
  (forall path s,
     schema.attribute ResourceFunctionUrl path = Some s ->
     schema.ValidateFunc s <> None ->
     path = ["authorization_type"] \/ path = ["cors"; "max_age"]).
Proof.
  split; [|split].
  - intros s. unfold schema.accepts. cbn.
    change lambda.FunctionUrlAuthTypeNone with "NONE".
    change lambda.FunctionUrlAuthTypeAwsIam with "AWS_IAM".
    destruct (String.eqb_spec s "NONE") as [->|N1]; cbn; [tauto|].
    destruct (String.eqb_spec s "AWS_IAM") as [->|N2]; cbn; [tauto|].
    split; [discriminate|intros [?|?]; contradiction].
  - intros n. unfold schema.accepts. cbn.
    destruct (Z.gtb_spec n 86400); cbn; split; intros; try lia; try discriminate.
  - intros path s. unfold schema.attribute, ResourceFunctionUrl.
    destruct path as [|k [|k2 [|k3 rest]]]; try discriminate;
      cbn [schema.fields schema.field].
    + repeat match goal with
      | |- context [String.eqb ?a k] =>
          destruct (String.eqb_spec a k) as [<-|?]
      end; intros E; inversion E; subst; cbn; intros V;
        try (now left); try (now contradiction V).
    + repeat match goal with
      | |- context [String.eqb ?a k] =>
          destruct (String.eqb_spec a k) as [<-|?]
      end; cbn [schema.elem schema.field]; try discriminate.
      repeat match goal with
      | |- context [String.eqb ?a k2] =>
          destruct (String.eqb_spec a k2) as [<-|?]
      end; intros E; inversion E; subst; cbn; intros V;
        try (now right); try (now contradiction V).
Qed.

(* ================================================================= *)
(** ** The callbacks on concrete remotes *)

Import Scenario.

Lemma delete_not_found_succeeds_witness :
  lambda.DeleteFunctionUrlConfig (scripted (failing notFound))
    (deleteParams (existing "NONE" "NONE")) tt = (inr notFound, tt) /\
  run (resourceFunctionURLDelete (reflection := goRuntime) (scripted (failing notFound)))
      (existing "NONE" "NONE") tt =
    (Returned [],
     {| data := existing "NONE" "NONE"; remote := tt;
        calls := [lambda.CallDeleteFunctionUrlConfig
                    (deleteParams (existing "NONE" "NONE"))] |}).
Proof.
  split; [reflexivity|].
  apply (delete_not_found_succeeds (reflection := goRuntime)
           (scripted (failing notFound)) (existing "NONE" "NONE") tt
           (r' := tt) (e := notFound)
           (message := "The resource you requested does not exist."));
    reflexivity.
Defined.

(** C2, on a new resource: the function URL has just been created and the
    read is answered with [ResourceNotFoundException]; the callback
    returns an error diagnostic and the ID stays. *)
Lemma read_not_found_new_resource_fails :
  IsNewResource (justCreated "NONE") = true /\
  lambda.GetFunctionUrlConfig (scripted (failing notFound))
    (getInput (justCreated "NONE")) tt = (inr notFound, tt) /\
  diag.HasError
    match fst (run (resourceFunctionURLRead (reflection := goRuntime)
                      (scripted (failing notFound)) (fun v => v))
                   (justCreated "NONE") tt) with
    | Returned ds => ds
    | Panicked _ => []
    end = true /\
  Id (data (snd (run (resourceFunctionURLRead (reflection := goRuntime)
                        (scripted (failing notFound)) (fun v => v))
                     (justCreated "NONE") tt))) = arn.
Proof. repeat split. Qed.

Lemma read_not_found_witness :
  lambda.GetFunctionUrlConfig (scripted (failing notFound))
    (getInput (existing "NONE" "NONE")) tt = (inr notFound, tt) /\
  fst (run (resourceFunctionURLRead (reflection := goRuntime)
              (scripted (failing notFound)) (fun v => v))
           (existing "NONE" "NONE") tt) = Returned [] /\
  Id (data (snd (run (resourceFunctionURLRead (reflection := goRuntime)
                        (scripted (failing notFound)) (fun v => v))
                     (existing "NONE" "NONE") tt))) = "".
Proof.
  split; [reflexivity|].
  apply (read_not_found (reflection := goRuntime) (scripted (failing notFound))
           (fun v => v) (existing "NONE" "NONE") tt (r' := tt)
           (message := "The resource you requested does not exist.")).
  reflexivity.
Defined.

Lemma create_adds_permission_iff_none_witness :
  createInput noStrings (planned "NONE")
    = Returned {| lambda.create_AuthType := Some "NONE";
                  lambda.create_Cors := None;
                  lambda.create_FunctionName := Some "my-function";
                  lambda.create_Qualifier := Some "live" |} /\
  (authorization_type (current (planned "NONE")) = "NONE" <->
   exists p,
     In (lambda.CallAddPermission p)
        (calls (snd (run (resourceFunctionURLCreate (reflection := goRuntime)
                            (scripted (healthy "NONE")) noStrings (fun v => v))
                         (planned "NONE") tt)))).
Proof.
  split; [reflexivity|].
  apply (create_adds_permission_iff_none (reflection := goRuntime)
           (scripted (healthy "NONE")) noStrings (fun v => v)
           (planned "NONE") tt
           (input := {| lambda.create_AuthType := Some "NONE";
                        lambda.create_Cors := None;
                        lambda.create_FunctionName := Some "my-function";
                        lambda.create_Qualifier := Some "live" |})
           (output := {| lambda.created_FunctionArn := Some arn |})
           (r1 := tt));
    reflexivity.
Defined.



Lemma update_request_fields_witness :
  updateParams noStrings (existing "NONE" "AWS_IAM")
    = Returned {| lambda.update_AuthType := Some "AWS_IAM";
                  lambda.update_Cors := None;
                  lambda.update_FunctionName := Some "my-function";
                  lambda.update_Qualifier := Some "live" |} /\
  (authorization_type (prior (existing "NONE" "AWS_IAM"))
     <> authorization_type (current (existing "NONE" "AWS_IAM")) <->
   Some "AWS_IAM" <> None).
Proof.
  split; [reflexivity|].
  apply (update_request_fields (reflection := goRuntime)
           (scripted (healthy "AWS_IAM")) noStrings (fun v => v)
           (existing "NONE" "AWS_IAM") tt
           (params := {| lambda.update_AuthType := Some "AWS_IAM";
                         lambda.update_Cors := None;
                         lambda.update_FunctionName := Some "my-function";
                         lambda.update_Qualifier := Some "live" |})).
  reflexivity.
Defined.

(* ================================================================= *)
(** ** What the error diagnostics say *)

Open Scope string_scope.

Section ErrorReports.

Variable R : Type.
Variable conn : lambda.Conn R.
Context {reflection : fmt.Reflection}.
Variable ExpandStringList : list value -> list (option string).
Variable storedList : list value -> list value.

(** A failed create, update or delete reports the remote error's own
    text after a prefix that names the operation. *)
Lemma create_error_text (d : ResourceData) (r r1 : R) input (e : error) :
  createInput ExpandStringList d = Returned input ->
  lambda.CreateFunctionUrlConfigWithContext conn input r = (inr e, r1) ->
  fst (run (resourceFunctionURLCreate conn ExpandStringList storedList) d r) =
    Returned (errorDiagnostic
      ("error creating Lambda Function URL (" ++ function_name (current d) ++ "): "
         ++ Go.Error e)).
Proof.
  intros H A.
  rewrite create_failed with (input := input) (r1 := r1) (e := e) by assumption.
  unfold diag_Errorf. rewrite Sprintf_create. reflexivity.
Qed.

Lemma update_error_text (d : ResourceData) (r r1 : R) params (e : error) :
  updateParams ExpandStringList d = Returned params ->
  lambda.UpdateFunctionUrlConfig conn params r = (inr e, r1) ->
  fst (run (resourceFunctionURLUpdate conn ExpandStringList storedList) d r) =
    Returned (errorDiagnostic
      ("error updating Lambda Function Url (" ++ Id d ++ "): " ++ Go.Error e)).
Proof.
  intros H A.
  rewrite update_failed with (params := params) (r1 := r1) (e := e) by assumption.
  unfold diag_Errorf. rewrite Sprintf_update. reflexivity.
Qed.

Lemma delete_error_text (d : ResourceData) (r r1 : R) (e : error) :
  lambda.DeleteFunctionUrlConfig conn (deleteParams d) r = (inr e, r1) ->
  ErrCodeEquals (Some e) lambda.ErrCodeResourceNotFoundException = false ->
  fst (run (resourceFunctionURLDelete conn) d r) =
    Returned (errorDiagnostic
      ("error deleting Lambda Function Url (" ++ Id d ++ "): " ++ Go.Error e)).
Proof.
  intros A N.
  rewrite delete_failed with (r1 := r1) (e := e) by assumption.
  unfold diag_Errorf. rewrite Sprintf_delete. reflexivity.
Qed.

(** A failed read reports the bad-verb rendering of the error. *)
Lemma read_error_text (d : ResourceData) (r r1 : R) (e : error) :
  lambda.GetFunctionUrlConfig conn (getInput d) r = (inr e, r1) ->
  isNotFound e && negb (IsNewResource d) = false ->
  fst (run (resourceFunctionURLRead conn storedList) d r) =
    Returned (errorDiagnostic
      ("error getting Lambda Function Url Config (" ++ Id d ++ "): %!w("
         ++ fmt.TypeOf e ++ "=" ++ fmt.GoValue e ++ ")")).
Proof.
  intros A N. unfold run.
  rewrite read_error with (e := e) (r' := r1) by exact A.
  cbn [data]. rewrite N. unfold diag_Errorf. rewrite Sprintf_read. reflexivity.
Qed.

End ErrorReports.

(** C8, on a read that is denied: [GetFunctionUrlConfig] answers with the
    error [AccessDeniedException].  The read callback returns one error
    diagnostic, but its summary holds the bad-verb report
    [%!w(type=value)] of the error and does not end in the error's text,
    whatever the runtime prints for the type and the value; the update
    callback, given the same error, ends its summary in the error's
    text. *)
Theorem read_error_text_lost (reflection : fmt.Reflection) :
  exists summary,
    fst (run (resourceFunctionURLRead (scripted (failing accessDenied)) (fun v => v))
             (existing "AWS_IAM" "AWS_IAM") tt)
      = Returned (errorDiagnostic summary) /\
    summary = "error getting Lambda Function Url Config (" ++ arn ++ "): %!w("
                ++ fmt.TypeOf accessDenied ++ "=" ++ fmt.GoValue accessDenied ++ ")" /\
    (forall context, summary <> context ++ Go.Error accessDenied) /\
    fst (run (resourceFunctionURLUpdate (scripted (failing accessDenied))
                noStrings (fun v => v))
             (existing "NONE" "AWS_IAM") tt)
      = Returned (errorDiagnostic
          ("error updating Lambda Function Url (" ++ arn ++ "): "
             ++ Go.Error accessDenied)).
Proof.
  eexists. split; [|split; [reflexivity|split]].
  - apply read_error_text with (r1 := tt); reflexivity.
  - intros context E.
    destruct (Sprintf_read_ends arn accessDenied) as [body Hbody].
    rewrite Sprintf_read in Hbody. cbn [Id existing] in E. rewrite Hbody in E.
    change (Go.Error accessDenied)
      with ("AccessDeniedException: not authorized to perform: lambda:GetFunctionUrlConfi"
              ++ "g") in E.
    rewrite <- append_assoc in E.
    apply append_last_byte in E. discriminate.
  - apply update_error_text with (r1 := tt)
      (params := {| lambda.update_AuthType := Some "AWS_IAM";
                    lambda.update_Cors := None;
                    lambda.update_FunctionName := Some "my-function";
                    lambda.update_Qualifier := Some "live" |});
      reflexivity.
Qed.

Open Scope list_scope.

(** An update whose configuration drops the CORS block: [cors] has
    changed, so the request carries the empty [Cors], and the unchanged
    authorization type is left out. *)
Lemma update_after_cors_removed :
  calls (snd (run (resourceFunctionURLUpdate (reflection := goRuntime)
                     (scripted (healthy "AWS_IAM")) noStrings (fun v => v))
                  corsRemoved tt))
  = [ lambda.CallUpdateFunctionUrlConfig
        {| lambda.update_AuthType := None;
           lambda.update_Cors := Some lambda.emptyCors;
           lambda.update_FunctionName := Some "my-function";
           lambda.update_Qualifier := None |};
      lambda.CallGetFunctionUrlConfig
        {| lambda.get_FunctionName := Some "my-function";
           lambda.get_Qualifier := None |} ].
Proof. reflexivity. Qed.

(** A create whose read-back is answered with [ResourceNotFoundException]:
    the resource is new, so the create fails and the ID it has set
    stays. *)
Lemma create_then_not_found :
  diag.HasError
    match fst (run (resourceFunctionURLCreate (reflection := goRuntime)
                      (scripted (createdThenUnreadable notFound)) noStrings (fun v => v))
                   (planned "AWS_IAM") tt) with
    | Returned ds => ds
    | Panicked _ => []
    end = true /\
  Id (data (snd (run (resourceFunctionURLCreate (reflection := goRuntime)
                        (scripted (createdThenUnreadable notFound)) noStrings (fun v => v))
                     (planned "AWS_IAM") tt))) = arn.
Proof. split; reflexivity. Qed.

(* ================================================================= *)
(** ** Further properties of the converters *)

Section ConverterFacts.

Variable ExpandStringList : list value -> list (option string).

Local Abbreviation expand := (expandFunctionUrlCorsConfigs ExpandStringList).

(** X1: unless the configuration holds exactly one block, the converter
    returns the empty [Cors] and does not look at the blocks. *)
Theorem expand_without_single_block (urlConfigMap : list value) :
  length urlConfigMap <> 1%nat ->
  expand urlConfigMap = Returned lambda.emptyCors.
Proof.
  destruct urlConfigMap as [|first [|second rest]]; simpl; intros H.
  - reflexivity.
  - contradiction.
  - destruct first; reflexivity.
Qed.

(** What a returned [Cors] says about the block it was converted from. *)
Lemma expand_block_inv (entries : list (string * value)) (c : lambda.Cors) :
  expand [VMap entries] = Returned c ->
  exists b headers methods origins exposed n,
    map_get entries "allow_credentials" = VBool b /\
    map_get entries "allow_headers" = VList headers /\
    map_get entries "allow_methods" = VList methods /\
    map_get entries "allow_origins" = VList origins /\
    map_get entries "expose_headers" = VList exposed /\
    map_get entries "max_age" = VInt n /\
    lambda.AllowCredentials c = Some b /\
    lambda.MaxAge c = (if (n >? 0)%Z then Some n else None).
Proof.
  unfold expandFunctionUrlCorsConfigs, assert_map, obind.
  destruct (map_get entries "allow_credentials") eqn:E1; simpl; try discriminate.
  destruct (map_get entries "allow_headers") eqn:E2; simpl; try discriminate.
  destruct (map_get entries "allow_methods") eqn:E3; simpl; try discriminate.
  destruct (map_get entries "allow_origins") eqn:E4; simpl; try discriminate.
  destruct (map_get entries "expose_headers") eqn:E5; simpl; try discriminate.
  destruct (map_get entries "max_age") eqn:E6; simpl; try discriminate.
  intros E. inversion E; subst c; clear E.
  do 6 eexists. repeat (split; [reflexivity|]). reflexivity.
Qed.

(** X2: on one block that is a map, the converter returns exactly when
    [allow_credentials] is a bool, the four header, method and origin
    attributes are slices and [max_age] is an int; any other block, a
    missing attribute included, makes it panic.  When it returns,
    [AllowCredentials] is always set, a list attribute is passed on only
    when it is non-empty, and [MaxAge] only when it is positive. *)
Theorem expand_block_typed (entries : list (string * value)) (c : lambda.Cors) :
  expand [VMap entries] = Returned c <->
  exists b headers methods origins exposed n,
    map_get entries "allow_credentials" = VBool b /\
    map_get entries "allow_headers" = VList headers /\
    map_get entries "allow_methods" = VList methods /\
    map_get entries "allow_origins" = VList origins /\
    map_get entries "expose_headers" = VList exposed /\
    map_get entries "max_age" = VInt n /\
    c = {| lambda.AllowCredentials := Some b;
           lambda.AllowHeaders :=
             match headers with [] => [] | _ => ExpandStringList headers end;
           lambda.AllowMethods :=
             match methods with [] => [] | _ => ExpandStringList methods end;
           lambda.AllowOrigins :=
             match origins with [] => [] | _ => ExpandStringList origins end;
           lambda.ExposeHeaders :=
             match exposed with [] => [] | _ => ExpandStringList exposed end;
           lambda.MaxAge := if (0 <? n)%Z then Some n else None |}.
Proof.
  assert (Hne : forall l : list value,
            (if nonEmpty l then ExpandStringList l else [])
            = match l with [] => [] | _ => ExpandStringList l end).
  { intros [|x l]; [reflexivity|]. unfold nonEmpty, len.
    destruct (0 <? _)%Z eqn:E; [reflexivity|].
    apply Z.ltb_ge in E. simpl length in E. lia. }
  unfold expandFunctionUrlCorsConfigs, assert_map, obind.
  split.
  - destruct (map_get entries "allow_credentials") eqn:E1; simpl; try discriminate.
    destruct (map_get entries "allow_headers") eqn:E2; simpl; try discriminate.
    destruct (map_get entries "allow_methods") eqn:E3; simpl; try discriminate.
    destruct (map_get entries "allow_origins") eqn:E4; simpl; try discriminate.
    destruct (map_get entries "expose_headers") eqn:E5; simpl; try discriminate.
    destruct (map_get entries "max_age") eqn:E6; simpl; try discriminate.
    intros E. inversion E; subst c; clear E.
    do 6 eexists. repeat (split; [reflexivity|]).
    rewrite !Hne, Z.gtb_ltb. reflexivity.
  - intros (b & hs & ms & os & es & n & E1 & E2 & E3 & E4 & E5 & E6 & ->).
    rewrite E1, E2, E3, E4, E5, E6. simpl.
    rewrite !Hne, Z.gtb_ltb. reflexivity.
Qed.

(** X3: whatever the configuration, a [MaxAge] the converter returns is
    positive: a [max_age] of zero or below is never sent. *)
Theorem expand_max_age_positive (urlConfigMap : list value) (c : lambda.Cors) (n : Z) :
  expand urlConfigMap = Returned c ->
  lambda.MaxAge c = Some n ->
  (0 < n)%Z.
Proof.
  destruct urlConfigMap as [|first [|second rest]].
  - simpl. intros E; inversion E; subst. discriminate.
  - destruct first as [ | | | | | |entries];
      try (simpl; intros E; inversion E; subst; discriminate).
    intros E. apply expand_block_inv in E.
    destruct E as (b & hs & ms & os & es & m & _ & _ & _ & _ & _ & _ & _ & ->).
    destruct (Z.gtb_spec m 0) as [L|L]; [|discriminate].
    intros M. inversion M; subst. exact L.
  - destruct first; simpl; intros E; inversion E; subst; discriminate.
Qed.

(** X4: a block that holds [allow_headers] as a set, the way the schema
    types it, makes the converter panic on its type assertion. *)
Theorem expand_set_attribute_panics
    (entries : list (string * value)) (b : bool) (items : list value) :
  map_get entries "allow_credentials" = VBool b ->
  map_get entries "allow_headers" = VSet items ->
  expand [VMap entries] = Panicked "interface conversion: not []interface {}".
Proof.
  intros E1 E2. unfold expandFunctionUrlCorsConfigs, assert_map, obind.
  rewrite E1, E2. reflexivity.
Qed.

End ConverterFacts.

(** X5: the converter of the response returns no block for a nil [Cors]
    and one block otherwise, within the [MaxItems] of the schema; the
    block writes exactly the attributes the schema declares for [cors]. *)
Theorem flatten_matches_schema (c : option lambda.Cors) :
  match flattenFunctionUrlCorsConfigs c with
  | [] => c = None
  | [VMap entries] =>
      c <> None /\
      forall key,
        In key (map fst entries) <->
        schema.attribute ResourceFunctionUrl ["cors"; key] <> None
  | _ => False
  end.
Proof.
  destruct c as [c|]; [|reflexivity].
  cbn [flattenFunctionUrlCorsConfigs]. split; [discriminate|].
  intros key. unfold schema.attribute, ResourceFunctionUrl.
  cbn [schema.fields schema.field map fst].
  change (String.eqb "authorization_type" "cors") with false.
  change (String.eqb "cors" "cors") with true.
  cbn [schema.elem schema.field].
  split.
  - intros H. cbn [In] in H.
    repeat match goal with
    | H : _ \/ _ |- _ => destruct H as [<-|H]
    | H : False |- _ => destruct H
    end; discriminate.
  - repeat match goal with
    | |- context [String.eqb ?a key] =>
        destruct (String.eqb_spec a key) as [<-|?]
    end; intros H; cbn [In]; try tauto.
Qed.

(* ================================================================= *)
(** ** Further properties of the callbacks *)

Section CallbackProperties.

Variable R : Type.
Variable conn : lambda.Conn R.
Context {reflection : fmt.Reflection}.
Variable ExpandStringList : list value -> list (option string).
Variable storedList : list value -> list value.

Local Abbreviation Read := (resourceFunctionURLRead conn storedList).
Local Abbreviation Create := (resourceFunctionURLCreate conn ExpandStringList storedList).
Local Abbreviation Update := (resourceFunctionURLUpdate conn ExpandStringList storedList).
Local Abbreviation Delete := (resourceFunctionURLDelete conn).

Ltac step_callback :=
  cbv beta iota zeta delta
    [run resourceFunctionURLRead resourceFunctionURLCreate
     resourceFunctionURLUpdate resourceFunctionURLDelete
     bind ret lift getData modifyData send];
  cbn [data remote calls].

Ltac settle :=
  cbv beta iota zeta;
  cbn [data remote calls SetId current Id IsNewResource fst snd app].

(** A read that is answered with a description. *)
Lemma read_described (w : World R) output (r' : R) :
  lambda.GetFunctionUrlConfig conn (getInput (data w)) (remote w) = (inl output, r') ->
  Read w =
    (Returned [],
     {| data :=
          Set_function_url
            (Set_function_arn
               (Set_cors
                  (Set_authorization_type (data w)
                     (aws_StringValue (lambda.got_AuthType output)))
                  (storedList (flattenFunctionUrlCorsConfigs (lambda.got_Cors output))))
               (aws_StringValue (lambda.got_FunctionArn output)))
            (aws_StringValue (lambda.got_FunctionUrl output));
        remote := r';
        calls := calls w ++ [lambda.CallGetFunctionUrlConfig (getInput (data w))] |}).
Proof. intros H. step_callback. rewrite H. reflexivity. Qed.

(** X6: a read that is answered with a description returns nil
    diagnostics and stores the four attributes of the description (a nil
    field as the empty string); it leaves the ID, [function_name],
    [qualifier] and the prior state as they were. *)
Theorem read_refreshes_attributes (d : ResourceData) (r r' : R) output :
  lambda.GetFunctionUrlConfig conn (getInput d) r = (inl output, r') ->
  fst (run Read d r) = Returned [] /\
  current (data (snd (run Read d r))) =
    {| authorization_type := aws_StringValue (lambda.got_AuthType output);
       cors := storedList (flattenFunctionUrlCorsConfigs (lambda.got_Cors output));
       function_arn := aws_StringValue (lambda.got_FunctionArn output);
       function_name := function_name (current d);
       function_url := aws_StringValue (lambda.got_FunctionUrl output);
       qualifier := qualifier (current d) |} /\
  Id (data (snd (run Read d r))) = Id d /\
  IsNewResource (data (snd (run Read d r))) = IsNewResource d /\
  prior (data (snd (run Read d r))) = prior d.
Proof.
  intros H. unfold run.
  rewrite read_described with (output := output) (r' := r') by exact H.
  repeat split.
Qed.

(** X7: on every answer a read returns diagnostics (it never panics) and
    keeps [function_name], [qualifier], the prior state and the new-resource
    mark; the ID is either kept or, only for a resource that is not new and
    with nil diagnostics, cleared. *)
Theorem read_keeps_target (w : World R) :
  exists ds,
    fst (Read w) = Returned ds /\
    function_name (current (data (snd (Read w)))) = function_name (current (data w)) /\
    qualifier (current (data (snd (Read w)))) = qualifier (current (data w)) /\
    prior (data (snd (Read w))) = prior (data w) /\
    IsNewResource (data (snd (Read w))) = IsNewResource (data w) /\
    (Id (data (snd (Read w))) = Id (data w) \/
     Id (data (snd (Read w))) = "" /\ IsNewResource (data w) = false /\ ds = []).
Proof.
  destruct (lambda.GetFunctionUrlConfig conn (getInput (data w)) (remote w))
    as [[output|e] r'] eqn:A.
  - rewrite read_described with (output := output) (r' := r') by exact A.
    eexists. repeat split. now left.
  - rewrite read_error with (e := e) (r' := r') by exact A.
    destruct (isNotFound e && negb (IsNewResource (data w))) eqn:N.
    + apply andb_true_iff in N as [_ N]. apply negb_true_iff in N.
      eexists. repeat split; try assumption. right. repeat split. exact N.
    + eexists. repeat split. now left.
Qed.

(** X8: a delete never touches the resource data, and it returns nil
    diagnostics exactly when the request succeeded or failed with the
    not-found code; on any other error it returns the one diagnostic that
    ends in the error's text. *)
Theorem delete_outcome (d : ResourceData) (r : R) :
  data (snd (run Delete d r)) = d /\
  match fst (lambda.DeleteFunctionUrlConfig conn (deleteParams d) r) with
  | inl _ => fst (run Delete d r) = Returned []
  | inr e =>
      if ErrCodeEquals (Some e) lambda.ErrCodeResourceNotFoundException
      then fst (run Delete d r) = Returned []
      else fst (run Delete d r) =
             Returned (errorDiagnostic
               ("error deleting Lambda Function Url (" ++ Id d ++ "): " ++ Go.Error e))
  end.
Proof.
  step_callback.
  destruct (lambda.DeleteFunctionUrlConfig conn (deleteParams d) r)
    as [[[]|e] r'] eqn:A; settle.
  - split; reflexivity.
  - destruct (ErrCodeEquals (Some e) _); settle; split; try reflexivity.
    unfold diag_Errorf. rewrite Sprintf_delete. reflexivity.
Qed.

(** A read of a new resource returns nil diagnostics only when it was
    answered with a description. *)
Lemma read_new_resource_nil (w : World R) :
  IsNewResource (data w) = true ->
  fst (Read w) = Returned [] ->
  exists output r',
    lambda.GetFunctionUrlConfig conn (getInput (data w)) (remote w) = (inl output, r').
Proof.
  intros New H.
  destruct (lambda.GetFunctionUrlConfig conn (getInput (data w)) (remote w))
    as [[output|e] r'] eqn:A.
  - now exists output, r'.
  - rewrite read_error with (e := e) (r' := r') in H by exact A.
    rewrite New, andb_false_r in H. discriminate.
Qed.

(** X9: the request a create sends carries [AuthType] and [FunctionName]
    always, [Qualifier] exactly when the qualifier is non-empty, and
    [Cors], the converted configuration, exactly when [cors] is
    configured. *)
Theorem create_request_fields (d : ResourceData) (r : R) input :
  createInput ExpandStringList d = Returned input ->
  (exists rest,
     calls (snd (run Create d r)) = lambda.CallCreateFunctionUrlConfig input :: rest /\
     forall i, ~ In (lambda.CallCreateFunctionUrlConfig i) rest) /\
  lambda.create_AuthType input = Some (authorization_type (current d)) /\
  lambda.create_FunctionName input = Some (function_name (current d)) /\
  lambda.create_Qualifier input =
    (if String.eqb (qualifier (current d)) "" then None
     else Some (qualifier (current d))) /\
  (cors (current d) <> [] <-> lambda.create_Cors input <> None) /\
  (forall c, lambda.create_Cors input = Some c ->
     expandFunctionUrlCorsConfigs ExpandStringList (cors (current d)) = Returned c).
Proof.
  intros H. split.
  { destruct (lambda.CreateFunctionUrlConfigWithContext conn input r)
      as [[output|e] r1] eqn:A.
    - rewrite create_calls with (input := input) (output := output) (r1 := r1)
        by assumption.
      eexists. split; [reflexivity|]. intros i.
      destruct (String.eqb _ _); [destruct (fst _)|]; simpl; intuition discriminate.
    - rewrite create_failed with (input := input) (r1 := r1) (e := e) by assumption.
      eexists. split; [reflexivity|]. intros i []. }
  revert H. unfold createInput, GetOk_list, GetOk_string.
  destruct (cors (current d)) as [|block blocks].
  - cbn. intros E. inversion E; subst input; clear E. cbn.
    repeat split; try (destruct (String.eqb _ ""); reflexivity);
      try congruence; try discriminate.
  - assert (NE : nonEmpty (block :: blocks) = true).
    { unfold nonEmpty, len. apply Z.ltb_lt. simpl length. lia. }
    rewrite NE. cbn [andb].
    destruct (expandFunctionUrlCorsConfigs ExpandStringList (block :: blocks))
      as [c|reason]; cbn [obind]; [|discriminate].
    intros E. inversion E; subst input; clear E. cbn.
    repeat split; try (destruct (String.eqb _ ""); reflexivity);
      try congruence; try discriminate.
Qed.

(** X10: when [CreateFunctionUrlConfig] fails, the create callback stops:
    it has sent that one request, the ID is not set, and the diagnostic
    names the function and ends in the error's text. *)
Theorem create_failure_reported (d : ResourceData) (r r1 : R) input (e : error) :
  createInput ExpandStringList d = Returned input ->
  lambda.CreateFunctionUrlConfigWithContext conn input r = (inr e, r1) ->
  run Create d r =
    (Returned (errorDiagnostic
       ("error creating Lambda Function URL (" ++ function_name (current d) ++ "): "
          ++ Go.Error e)),
     {| data := d; remote := r1;
        calls := [lambda.CallCreateFunctionUrlConfig input] |}).
Proof.
  intros H A.
  rewrite create_failed with (input := input) (r1 := r1) (e := e) by assumption.
  unfold diag_Errorf. rewrite Sprintf_create. reflexivity.
Qed.

(** X11: when the function URL is created and [AddPermission] fails, the
    create callback stops without reading back: the ID is already set to
    the new ARN, and the diagnostic names that ID and ends in the error's
    text. *)
Theorem permission_failure_reported
    (d : ResourceData) (r r1 r2 : R) input output (e : error) :
  createInput ExpandStringList d = Returned input ->
  lambda.CreateFunctionUrlConfigWithContext conn input r = (inl output, r1) ->
  authorization_type (current d) = "NONE" ->
  lambda.AddPermissionWithContext conn (permissionInput d "NONE") r1 = (inr e, r2) ->
  fst (run Create d r) =
    Returned (errorDiagnostic
      ("error adding Lambda Function URL ("
         ++ aws_StringValue (lambda.created_FunctionArn output)
         ++ ") permission " ++ Go.Error e)) /\
  Id (data (snd (run Create d r))) = aws_StringValue (lambda.created_FunctionArn output) /\
  calls (snd (run Create d r)) =
    [lambda.CallCreateFunctionUrlConfig input;
     lambda.CallAddPermission (permissionInput d "NONE")].
Proof.
  intros H A N P.
  rewrite create_permission_failed
    with (input := input) (output := output) (r1 := r1) (r2 := r2) (e := e);
    try assumption; try (rewrite N; try assumption; reflexivity).
  unfold diag_Errorf. rewrite Sprintf_permission. rewrite N. repeat split.
Qed.

(** X12: once [CreateFunctionUrlConfig] has succeeded for a new resource,
    the ID is the ARN of the answer when the create callback ends,
    whether the later requests succeed or fail. *)
Theorem create_keeps_id (d : ResourceData) (r r1 : R) input output :
  IsNewResource d = true ->
  createInput ExpandStringList d = Returned input ->
  lambda.CreateFunctionUrlConfigWithContext conn input r = (inl output, r1) ->
  Id (data (snd (run Create d r))) = aws_StringValue (lambda.created_FunctionArn output).
Proof.
  intros New H A.
  assert (Hread : forall w : World R,
            IsNewResource (data w) = true -> Id (data (snd (Read w))) = Id (data w)).
  { intros w Hw.
    destruct (lambda.GetFunctionUrlConfig conn (getInput (data w)) (remote w))
      as [[o|e] r'] eqn:G.
    - rewrite read_described with (output := o) (r' := r') by exact G. reflexivity.
    - rewrite read_error with (e := e) (r' := r') by exact G.
      rewrite Hw, andb_false_r. reflexivity. }
  destruct (String.eqb (authorization_type (current d)) lambda.FunctionUrlAuthTypeNone) eqn:N.
  - destruct (lambda.AddPermissionWithContext conn
                (permissionInput d (authorization_type (current d))) r1)
      as [[[]|e] r2] eqn:P.
    + rewrite create_with_permission
        with (input := input) (output := output) (r1 := r1) (r2 := r2) by assumption.
      rewrite Hread by exact New. reflexivity.
    + rewrite create_permission_failed
        with (input := input) (output := output) (r1 := r1) (r2 := r2) (e := e)
        by assumption.
      reflexivity.
  - rewrite create_without_permission
      with (input := input) (output := output) (r1 := r1) by assumption.
    rewrite Hread by exact New. reflexivity.
Qed.

(** X13: a create of a new resource returns nil diagnostics only when
    every request it sent succeeded: [CreateFunctionUrlConfig], then
    [AddPermission] under [NONE], then [GetFunctionUrlConfig]. *)
Theorem create_success_means_all_succeeded (d : ResourceData) (r : R) input :
  IsNewResource d = true ->
  createInput ExpandStringList d = Returned input ->
  fst (run Create d r) = Returned [] ->
  exists output r1,
    lambda.CreateFunctionUrlConfigWithContext conn input r = (inl output, r1) /\
    if String.eqb (authorization_type (current d)) "NONE"
    then exists r2 described r3,
           lambda.AddPermissionWithContext conn
             (permissionInput d (authorization_type (current d))) r1 = (inl tt, r2) /\
           lambda.GetFunctionUrlConfig conn (getInput d) r2 = (inl described, r3)
    else exists described r3,
           lambda.GetFunctionUrlConfig conn (getInput d) r1 = (inl described, r3).
Proof.
  intros New H Nil.
  destruct (lambda.CreateFunctionUrlConfigWithContext conn input r)
    as [[output|e] r1] eqn:A.
  2:{ rewrite create_failed with (input := input) (r1 := r1) (e := e) in Nil
        by assumption.
      discriminate. }
  exists output, r1. split; [reflexivity|].
  change "NONE" with lambda.FunctionUrlAuthTypeNone.
  destruct (String.eqb (authorization_type (current d)) lambda.FunctionUrlAuthTypeNone) eqn:N.
  - destruct (lambda.AddPermissionWithContext conn
                (permissionInput d (authorization_type (current d))) r1)
      as [[[]|e] r2] eqn:P.
    + rewrite create_with_permission
        with (input := input) (output := output) (r1 := r1) (r2 := r2) in Nil
        by assumption.
      apply read_new_resource_nil in Nil; [|exact New].
      destruct Nil as (o & r3 & G). exists r2, o, r3. split; [reflexivity|exact G].
    + rewrite create_permission_failed
        with (input := input) (output := output) (r1 := r1) (r2 := r2) (e := e) in Nil
        by assumption.
      discriminate.
  - rewrite create_without_permission
      with (input := input) (output := output) (r1 := r1) in Nil by assumption.
    apply read_new_resource_nil in Nil; [|exact New].
    destruct Nil as (o & r3 & G). exists o, r3. exact G.
Qed.

(** X14: when [UpdateFunctionUrlConfig] fails, the update callback stops
    without reading back: it has sent that one request, the resource data
    is untouched, and the diagnostic names the ID and ends in the error's
    text. *)
Theorem update_failure_reported (d : ResourceData) (r r1 : R) params (e : error) :
  updateParams ExpandStringList d = Returned params ->
  lambda.UpdateFunctionUrlConfig conn params r = (inr e, r1) ->
  run Update d r =
    (Returned (errorDiagnostic
       ("error updating Lambda Function Url (" ++ Id d ++ "): " ++ Go.Error e)),
     {| data := d; remote := r1;
        calls := [lambda.CallUpdateFunctionUrlConfig params] |}).
Proof.
  intros H A.
  rewrite update_failed with (params := params) (r1 := r1) (e := e) by assumption.
  unfold diag_Errorf. rewrite Sprintf_update. reflexivity.
Qed.

(** X15: an update of a resource that is not new succeeds and then finds
    the function URL gone: the read it ends with is answered with
    [ResourceNotFoundException], so the callback clears the ID and returns
    nil diagnostics. *)
Theorem update_then_gone (d : ResourceData) (r r1 r2 : R) params (message : string) :
  IsNewResource d = false ->
  updateParams ExpandStringList d = Returned params ->
  lambda.UpdateFunctionUrlConfig conn params r = (inl tt, r1) ->
  lambda.GetFunctionUrlConfig conn (getInput d) r1
    = (inr (awsError lambda.ErrCodeResourceNotFoundException message), r2) ->
  fst (run Update d r) = Returned [] /\
  Id (data (snd (run Update d r))) = "" /\
  calls (snd (run Update d r)) =
    [lambda.CallUpdateFunctionUrlConfig params;
     lambda.CallGetFunctionUrlConfig (getInput d)].
Proof.
  intros Old H A G.
  rewrite update_succeeded with (params := params) (r1 := r1) by assumption.
  rewrite read_error
    with (e := awsError lambda.ErrCodeResourceNotFoundException message) (r' := r2)
    by exact G.
  cbn [data]. rewrite isNotFound_awsError, Old. repeat split.
Qed.

(** X16: an update whose [cors] is unchanged never panics: it sends the
    update request without [Cors] and returns diagnostics. *)
Theorem update_returns_when_cors_unchanged (d : ResourceData) (r : R) :
  cors (prior d) = cors (current d) ->
  exists ds params rest,
    fst (run Update d r) = Returned ds /\
    calls (snd (run Update d r)) = lambda.CallUpdateFunctionUrlConfig params :: rest /\
    lambda.update_Cors params = None.
Proof.
  intros E.
  assert (C : HasChange_cors d = false).
  { destruct (HasChange_cors d) eqn:C; [|reflexivity].
    apply HasChange_cors_iff in C. contradiction. }
  assert (H : exists params,
            updateParams ExpandStringList d = Returned params /\
            lambda.update_Cors params = None).
  { unfold updateParams. rewrite C. eexists. split; reflexivity. }
  destruct H as (params & H & Hc).
  destruct (lambda.UpdateFunctionUrlConfig conn params r) as [[[]|e] r1] eqn:A.
  - rewrite update_succeeded with (params := params) (r1 := r1) by assumption.
    destruct (read_returns conn storedList
                {| data := d; remote := r1;
                   calls := [lambda.CallUpdateFunctionUrlConfig params] |}) as [ds Hds].
    exists ds, params. eexists. split; [exact Hds|].
    rewrite read_calls. split; [reflexivity|exact Hc].
  - rewrite update_failed with (params := params) (r1 := r1) (e := e) by assumption.
    do 3 eexists. split; [reflexivity|]. split; [reflexivity|exact Hc].
Qed.

(** X17: a create or an update whose configuration holds one CORS block
    with [allow_headers] as a set panics in the converter before any request
    is sent; the resource data and the remote are untouched. *)
Theorem set_block_panics_before_any_request
    (d : ResourceData) (r : R) (entries : list (string * value))
    (b : bool) (items : list value) :
  cors (current d) = [VMap entries] ->
  cors (prior d) <> cors (current d) ->
  map_get entries "allow_credentials" = VBool b ->
  map_get entries "allow_headers" = VSet items ->
  run Create d r =
    (Panicked "interface conversion: not []interface {}",
     {| data := d; remote := r; calls := [] |}) /\
  run Update d r =
    (Panicked "interface conversion: not []interface {}",
     {| data := d; remote := r; calls := [] |}).
Proof.
  intros C Changed E1 E2.
  assert (P : expandFunctionUrlCorsConfigs ExpandStringList [VMap entries]
              = Panicked "interface conversion: not []interface {}").
  { unfold expandFunctionUrlCorsConfigs, assert_map, obind.
    rewrite E1, E2. reflexivity. }
  split.
  - apply create_panicked. unfold createInput. rewrite C.
    cbn [GetOk_list andb]. change (nonEmpty [VMap entries]) with true.
    cbv iota. rewrite P. reflexivity.
  - apply update_panicked. unfold updateParams.
    apply HasChange_cors_iff in Changed. rewrite Changed, C, P. reflexivity.
Qed.

(** X18: the four requests name the same function: the create, get, update
    and delete requests carry the same [FunctionName] and the same
    [Qualifier], and the permission request the same [FunctionName]. *)
Theorem requests_name_the_same_function (d : ResourceData) input params :
  createInput ExpandStringList d = Returned input ->
  updateParams ExpandStringList d = Returned params ->
  lambda.create_FunctionName input = lambda.get_FunctionName (getInput d) /\
  lambda.update_FunctionName params = lambda.get_FunctionName (getInput d) /\
  lambda.delete_FunctionName (deleteParams d) = lambda.get_FunctionName (getInput d) /\
  lambda.perm_FunctionName (permissionInput d (authorization_type (current d)))
    = lambda.get_FunctionName (getInput d) /\
  lambda.create_Qualifier input = lambda.get_Qualifier (getInput d) /\
  lambda.update_Qualifier params = lambda.get_Qualifier (getInput d) /\
  lambda.delete_Qualifier (deleteParams d) = lambda.get_Qualifier (getInput d).
Proof.
  intros Hc Hu.
  unfold createInput in Hc. unfold updateParams in Hu.
  match type of Hc with obind ?x _ = _ => destruct x as [cf|] end;
    cbn [obind] in Hc; [|discriminate].
  match type of Hu with obind ?x _ = _ => destruct x as [uf|] end;
    cbn [obind] in Hu; [|discriminate].
  inversion Hc; subst input. inversion Hu; subst params.
  repeat split.
Qed.

End CallbackProperties.

(** X19: importing an ID with a colon and then reading sends one
    [GetFunctionUrlConfig] request for the second-to-last segment as the
    function name, qualified by the last segment unless that is empty. *)
Theorem import_then_read_request (d : ResourceData) :
  ContainsByte ":" (Id d) = true ->
  exists front functionName qual d',
    Split (Id d) ":" = front ++ [functionName; qual] /\
    resourceFunctionUrlImport d = Returned ([d'], None) /\
    forall (R : Type) (conn : lambda.Conn R) (reflection : fmt.Reflection)
           (storedList : list value -> list value) (r : R),
      calls (snd (run (resourceFunctionURLRead conn storedList) d' r)) =
        [lambda.CallGetFunctionUrlConfig
           {| lambda.get_FunctionName := Some functionName;
              lambda.get_Qualifier :=
                if String.eqb qual "" then None else Some qual |}].
Proof.
  intros H.
  destruct (two_last _ (Split_with_separator _ _ H)) as (front & fn & q & E).
  exists front, fn, q, (Set_qualifier (Set_function_name d fn) q).
  split; [exact E|]. split; [exact (import_of_segments d _ _ _ E)|].
  intros R conn reflection storedList r. unfold run. rewrite read_calls.
  cbn [calls data app]. unfold getInput, GetOk_string. cbn.
  destruct (String.eqb q ""); reflexivity.
Qed.


(** X21: the [DiffSuppressFunc] of [function_name] does not depend on the
    direction of the change, and it never suppresses a difference between
    two values of which neither parses as a function ARN. *)
Theorem functionNameDiffSuppress_symmetric
    (GetFunctionNameFromARN : string -> string * option error) (k old new : string) :
  functionNameDiffSuppress GetFunctionNameFromARN k old new
    = functionNameDiffSuppress GetFunctionNameFromARN k new old /\
  (snd (GetFunctionNameFromARN old) <> None ->
   snd (GetFunctionNameFromARN new) <> None ->
   functionNameDiffSuppress GetFunctionNameFromARN k old new = false).
Proof.
  unfold functionNameDiffSuppress.
  destruct (GetFunctionNameFromARN old) as [oldName [oldErr|]];
    destruct (GetFunctionNameFromARN new) as [newName [newErr|]]; simpl;
    split; try apply orb_comm; try tauto; intros; now rewrite !andb_false_r.
Qed.

(* ================================================================= *)
(** ** The further properties on concrete inputs *)

Lemma expand_without_single_block_witness :
  length [sliceBlock 60; sliceBlock 90] <> 1%nat /\
  expandFunctionUrlCorsConfigs noStrings [sliceBlock 60; sliceBlock 90]
    = Returned lambda.emptyCors.
Proof.
  split; [discriminate|].
  apply (expand_without_single_block noStrings [sliceBlock 60; sliceBlock 90]).
  discriminate.
Defined.

Lemma expand_max_age_positive_witness :
  expandFunctionUrlCorsConfigs noStrings [sliceBlock 3600]
    = Returned (lambda.mkCors (Some false) [] [] [] [] (Some 3600%Z)) /\
  (0 < 3600)%Z.
Proof.
  split; [reflexivity|].
  apply (expand_max_age_positive noStrings [sliceBlock 3600]
           (c := lambda.mkCors (Some false) [] [] [] [] (Some 3600%Z)));
    reflexivity.
Defined.

Lemma expand_set_attribute_panics_witness :
  expandFunctionUrlCorsConfigs noStrings [corsBlock]
    = Panicked "interface conversion: not []interface {}".
Proof.
  apply (expand_set_attribute_panics noStrings
           [ ("allow_credentials", VBool true);
             ("allow_headers", VSet [VString "date"]);
             ("allow_methods", VSet [VString "GET"]);
             ("allow_origins", VSet [VString "*"]);
             ("expose_headers", VSet []);
             ("max_age", VInt 3600) ]
           (b := true) (items := [VString "date"]));
    reflexivity.
Defined.

Lemma read_refreshes_attributes_witness :
  lambda.GetFunctionUrlConfig (scripted (healthy "AWS_IAM"))
    (getInput (existing "NONE" "AWS_IAM")) tt = (inl (described "AWS_IAM"), tt) /\
  fst (run (resourceFunctionURLRead (reflection := goRuntime)
              (scripted (healthy "AWS_IAM")) (fun v => v))
           (existing "NONE" "AWS_IAM") tt) = Returned [].
Proof.
  split; [reflexivity|].
  apply (read_refreshes_attributes (reflection := goRuntime)
           (scripted (healthy "AWS_IAM")) (fun v => v)
           (existing "NONE" "AWS_IAM") tt (r' := tt) (output := described "AWS_IAM")).
  reflexivity.
Defined.

Lemma create_request_fields_witness :
  createInput noStrings (planned "AWS_IAM")
    = Returned {| lambda.create_AuthType := Some "AWS_IAM";
                  lambda.create_Cors := None;
                  lambda.create_FunctionName := Some "my-function";
                  lambda.create_Qualifier := Some "live" |} /\
  (cors (current (planned "AWS_IAM")) <> [] <-> @None lambda.Cors <> None).
Proof.
  split; [reflexivity|].
  apply (create_request_fields (reflection := goRuntime)
           (scripted (healthy "AWS_IAM")) noStrings (fun v => v)
           (planned "AWS_IAM") tt
           (input := {| lambda.create_AuthType := Some "AWS_IAM";
                        lambda.create_Cors := None;
                        lambda.create_FunctionName := Some "my-function";
                        lambda.create_Qualifier := Some "live" |})).
  reflexivity.
Defined.

Lemma create_failure_reported_witness :
  run (resourceFunctionURLCreate (reflection := goRuntime)
         (scripted (failing accessDenied)) noStrings (fun v => v))
      (planned "NONE") tt =
    (Returned (errorDiagnostic
       ("error creating Lambda Function URL (my-function): " ++ Go.Error accessDenied)),
     {| data := planned "NONE"; remote := tt;
        calls := [lambda.CallCreateFunctionUrlConfig
                    {| lambda.create_AuthType := Some "NONE";
                       lambda.create_Cors := None;
                       lambda.create_FunctionName := Some "my-function";
                       lambda.create_Qualifier := Some "live" |}] |}).
Proof.
  apply (create_failure_reported (reflection := goRuntime)
           (scripted (failing accessDenied)) noStrings (fun v => v)
           (planned "NONE") tt (r1 := tt) (e := accessDenied)
           (input := {| lambda.create_AuthType := Some "NONE";
                        lambda.create_Cors := None;
                        lambda.create_FunctionName := Some "my-function";
                        lambda.create_Qualifier := Some "live" |}));
    reflexivity.
Defined.

Lemma permission_failure_reported_witness :
  Id (data (snd (run (resourceFunctionURLCreate (reflection := goRuntime)
                        (scripted permissionRefused) noStrings (fun v => v))
                     (planned "NONE") tt))) = arn.
Proof.
  apply (permission_failure_reported (reflection := goRuntime)
           (scripted permissionRefused) noStrings (fun v => v)
           (planned "NONE") tt (r1 := tt) (r2 := tt) (e := accessDenied)
           (input := {| lambda.create_AuthType := Some "NONE";
                        lambda.create_Cors := None;
                        lambda.create_FunctionName := Some "my-function";
                        lambda.create_Qualifier := Some "live" |})
           (output := {| lambda.created_FunctionArn := Some arn |}));
    reflexivity.
Defined.

Lemma create_keeps_id_witness :
  Id (data (snd (run (resourceFunctionURLCreate (reflection := goRuntime)
                        (scripted (createdThenUnreadable accessDenied))
                        noStrings (fun v => v))
                     (planned "AWS_IAM") tt))) = arn.
Proof.
  apply (create_keeps_id (reflection := goRuntime)
           (scripted (createdThenUnreadable accessDenied)) noStrings (fun v => v)
           (planned "AWS_IAM") tt (r1 := tt)
           (input := {| lambda.create_AuthType := Some "AWS_IAM";
                        lambda.create_Cors := None;
                        lambda.create_FunctionName := Some "my-function";
                        lambda.create_Qualifier := Some "live" |})
           (output := {| lambda.created_FunctionArn := Some arn |}));
    reflexivity.
Defined.

Lemma create_success_means_all_succeeded_witness :
  exists output r1,
    lambda.CreateFunctionUrlConfigWithContext (scripted (healthy "NONE"))
      {| lambda.create_AuthType := Some "NONE";
         lambda.create_Cors := None;
         lambda.create_FunctionName := Some "my-function";
         lambda.create_Qualifier := Some "live" |} tt = (inl output, r1) /\
    exists r2 described r3,
      lambda.AddPermissionWithContext (scripted (healthy "NONE"))
        (permissionInput (planned "NONE") "NONE") r1 = (inl tt, r2) /\
      lambda.GetFunctionUrlConfig (scripted (healthy "NONE"))
        (getInput (planned "NONE")) r2 = (inl described, r3).
Proof.
  apply (create_success_means_all_succeeded (reflection := goRuntime)
           (scripted (healthy "NONE")) noStrings (fun v => v)
           (planned "NONE") tt
           (input := {| lambda.create_AuthType := Some "NONE";
                        lambda.create_Cors := None;
                        lambda.create_FunctionName := Some "my-function";
                        lambda.create_Qualifier := Some "live" |}));
    reflexivity.
Defined.

Lemma update_failure_reported_witness :
  run (resourceFunctionURLUpdate (reflection := goRuntime)
         (scripted (failing accessDenied)) noStrings (fun v => v))
      (existing "NONE" "AWS_IAM") tt =
    (Returned (errorDiagnostic
       ("error updating Lambda Function Url (" ++ arn ++ "): " ++ Go.Error accessDenied)),
     {| data := existing "NONE" "AWS_IAM"; remote := tt;
        calls := [lambda.CallUpdateFunctionUrlConfig
                    {| lambda.update_AuthType := Some "AWS_IAM";
                       lambda.update_Cors := None;
                       lambda.update_FunctionName := Some "my-function";
                       lambda.update_Qualifier := Some "live" |}] |}).
Proof.
  apply (update_failure_reported (reflection := goRuntime)
           (scripted (failing accessDenied)) noStrings (fun v => v)
           (existing "NONE" "AWS_IAM") tt (r1 := tt) (e := accessDenied)
           (params := {| lambda.update_AuthType := Some "AWS_IAM";
                         lambda.update_Cors := None;
                         lambda.update_FunctionName := Some "my-function";
                         lambda.update_Qualifier := Some "live" |}));
    reflexivity.
Defined.

Lemma update_then_gone_witness :
  fst (run (resourceFunctionURLUpdate (reflection := goRuntime)
              (scripted updatedThenGone) noStrings (fun v => v))
           (existing "NONE" "AWS_IAM") tt) = Returned [] /\
  Id (data (snd (run (resourceFunctionURLUpdate (reflection := goRuntime)
                        (scripted updatedThenGone) noStrings (fun v => v))
                     (existing "NONE" "AWS_IAM") tt))) = "" /\
  calls (snd (run (resourceFunctionURLUpdate (reflection := goRuntime)
                     (scripted updatedThenGone) noStrings (fun v => v))
                  (existing "NONE" "AWS_IAM") tt)) =
    [lambda.CallUpdateFunctionUrlConfig
       {| lambda.update_AuthType := Some "AWS_IAM";
          lambda.update_Cors := None;
          lambda.update_FunctionName := Some "my-function";
          lambda.update_Qualifier := Some "live" |};
     lambda.CallGetFunctionUrlConfig (getInput (existing "NONE" "AWS_IAM"))].
Proof.
  apply (update_then_gone (reflection := goRuntime)
           (scripted updatedThenGone) noStrings (fun v => v)
           (existing "NONE" "AWS_IAM") tt (r1 := tt) (r2 := tt)
           (params := {| lambda.update_AuthType := Some "AWS_IAM";
                         lambda.update_Cors := None;
                         lambda.update_FunctionName := Some "my-function";
                         lambda.update_Qualifier := Some "live" |})
           (message := "The resource you requested does not exist."));
    reflexivity.
Defined.

Lemma update_returns_when_cors_unchanged_witness :
  cors (prior (existing "NONE" "AWS_IAM")) = cors (current (existing "NONE" "AWS_IAM")) /\
  exists ds params rest,
    fst (run (resourceFunctionURLUpdate (reflection := goRuntime)
                (scripted (healthy "AWS_IAM")) noStrings (fun v => v))
             (existing "NONE" "AWS_IAM") tt) = Returned ds /\
    calls (snd (run (resourceFunctionURLUpdate (reflection := goRuntime)
                       (scripted (healthy "AWS_IAM")) noStrings (fun v => v))
                    (existing "NONE" "AWS_IAM") tt))
      = lambda.CallUpdateFunctionUrlConfig params :: rest /\
    lambda.update_Cors params = None.
Proof.
  split; [reflexivity|].
  apply (update_returns_when_cors_unchanged (reflection := goRuntime)
           (scripted (healthy "AWS_IAM")) noStrings (fun v => v)
           (existing "NONE" "AWS_IAM") tt).
  reflexivity.
Defined.

Lemma set_block_panics_before_any_request_witness :
  run (resourceFunctionURLCreate (reflection := goRuntime)
         (scripted (healthy "AWS_IAM")) noStrings (fun v => v))
      plannedWithCors tt =
    (Panicked "interface conversion: not []interface {}",
     {| data := plannedWithCors; remote := tt; calls := [] |}).
Proof.
  apply (set_block_panics_before_any_request (reflection := goRuntime)
           (scripted (healthy "AWS_IAM")) noStrings (fun v => v)
           plannedWithCors tt
           (entries := [ ("allow_credentials", VBool true);
                         ("allow_headers", VSet [VString "date"]);
                         ("allow_methods", VSet [VString "GET"]);
                         ("allow_origins", VSet [VString "*"]);
                         ("expose_headers", VSet []);
                         ("max_age", VInt 3600) ])
           (b := true) (items := [VString "date"]));
    try reflexivity; discriminate.
Defined.

Lemma requests_name_the_same_function_witness :
  lambda.delete_Qualifier (deleteParams (existing "NONE" "AWS_IAM"))
    = lambda.get_Qualifier (getInput (existing "NONE" "AWS_IAM")).
Proof.
  apply (requests_name_the_same_function noStrings (existing "NONE" "AWS_IAM")
           (input := {| lambda.create_AuthType := Some "AWS_IAM";
                        lambda.create_Cors := None;
                        lambda.create_FunctionName := Some "my-function";
                        lambda.create_Qualifier := Some "live" |})
           (params := {| lambda.update_AuthType := Some "AWS_IAM";
                         lambda.update_Cors := None;
                         lambda.update_FunctionName := Some "my-function";
                         lambda.update_Qualifier := Some "live" |}));
    reflexivity.
Defined.

Lemma import_then_read_request_witness :
  ContainsByte ":" (Id (imported arn)) = true /\
  exists front functionName qual d',
    Split (Id (imported arn)) ":" = front ++ [functionName; qual] /\
    resourceFunctionUrlImport (imported arn) = Returned ([d'], None) /\
    forall (R : Type) (conn : lambda.Conn R) (reflection : fmt.Reflection)
           (storedList : list value -> list value) (r : R),
      calls (snd (run (resourceFunctionURLRead conn storedList) d' r)) =
        [lambda.CallGetFunctionUrlConfig
           {| lambda.get_FunctionName := Some functionName;
              lambda.get_Qualifier :=
                if String.eqb qual "" then None else Some qual |}].
Proof.
  split; [reflexivity|].
  apply (import_then_read_request (imported arn)). reflexivity.
Defined.


(** The ARN of a function and its name are not shown as a difference, in
    either direction. *)
Lemma function_arn_and_name_suppressed :
  functionNameDiffSuppress nameFromARN "function_name"
    "arn:aws:lambda:us-east-1:123456789012:function:my-function" "my-function" = true /\
  functionNameDiffSuppress nameFromARN "function_name"
    "my-function" "arn:aws:lambda:us-east-1:123456789012:function:my-function" = true /\
  functionNameDiffSuppress nameFromARN "function_name" "my-function" "other" = false.
Proof. repeat split. Qed.
